(** * The [adk create] scaffolding workflow

    A shallow embedding of three source files of the repository:

    - [dev/src/utils/file_utils.ts]  (module [FileUtils]),
    - [dev/src/cli/cli_create.ts]    (module [CliCreate]),
    - the command router that registers [create] (module [Cli]).

    The workflow is asynchronous JavaScript that talks to the file system,
    to the terminal, to child processes and to the process environment.
    Each such call is an event of the signature [Eff]; a function of the
    source becomes a program [Prog A], a tree whose nodes are the calls it
    makes and whose branches are the answers it may get.  [run] executes a
    program against an arbitrary environment and records the calls that
    were made, so that a statement about [run] for every handler is a
    statement about every execution of the source. *)

From Stdlib Require Import String Ascii List ZArith Lia.
From stdpp Require Import base option list gmap strings.

Open Scope string_scope.
Open Scope list_scope.

(** ** Strings *)

(** The line feed, as a one-character string. *)
Definition nl : string := String "010" EmptyString.

(** The templates of the source are full of double quotes.  They are
    written below with [^] in their place; [rq] puts the quotes back.  It is
    only ever applied to literal text, never to a value of the user. *)
Fixpoint rq (s : string) : string :=
  match s with
  | EmptyString => EmptyString
  | String c r => String (if Ascii.eqb c "^" then "034"%char else c) (rq r)
  end.

(** [Array.prototype.join]. *)
Definition js_join (sep : string) (l : list string) : string :=
  String.concat sep l.

(** [s.split('\n')]: the lines of a text.  The empty text has one empty
    line, as in JavaScript. *)
Fixpoint lines_of (s : string) : list string :=
  match s with
  | EmptyString => [EmptyString]
  | String c r =>
      if Ascii.eqb c "010" then EmptyString :: lines_of r
      else match lines_of r with
           | [] => [String c EmptyString]
           | l :: ls => String c l :: ls
           end
  end.

(** [s.startsWith(p)]. *)
Fixpoint starts_with (p s : string) : bool :=
  match p with
  | EmptyString => true
  | String a p' =>
      match s with
      | EmptyString => false
      | String b s' => Ascii.eqb a b && starts_with p' s'
      end
  end.

(** A string without line feed. *)
Fixpoint one_line (s : string) : bool :=
  match s with
  | EmptyString => true
  | String c r => negb (Ascii.eqb c "010") && one_line r
  end.

(** ** Run-time values of the option record

    The interface [AgentCreationOptions] types every field as [string] (and
    [forceYes] as [boolean]), but types are erased when the program runs and
    the router passes [options['model']] and the like, which are
    [undefined] for an option that was not given: a field is [None] for
    [undefined]. *)

(** JavaScript truthiness of a [string | undefined]. *)
Definition truthy (v : option string) : bool :=
  match v with
  | Some s => negb (String.eqb s EmptyString)
  | None => false
  end.

(** Truthiness of a [boolean | undefined]. *)
Definition truthy_flag (v : option bool) : bool :=
  match v with
  | Some b => b
  | None => false
  end.

(** [ToString] as a template literal applies it. *)
Definition to_str (v : option string) : string :=
  match v with
  | Some s => s
  | None => "undefined"
  end.

(** The services of the JavaScript host that the repository calls and does
    not define: [path.join], [String.prototype.trim], [process.cwd()] (read
    once, when [cli_create.ts] is loaded, into [dirname]) and the text of
    the cancel symbol of the prompt library under [toString]. *)
Class Host := {
  path_join : string -> string -> string;
  js_trim : string -> string;
  process_cwd : string;
  cancel_text : string
}.

(** ** Events *)

(** A JavaScript exception, or the reason of a rejected promise. *)
Definition JsError := string.

(** A call that either succeeds with a value or fails with an error. *)
Inductive result (A : Type) : Type :=
| Ok (a : A)
| Err (e : JsError).
Arguments Ok {A} a.
Arguments Err {A} e.

(** What a prompt of [@clack/prompts] resolves to: the cancel symbol or the
    user's choice.  [isCancel(a)] of the source is the test for [Cancelled]. *)
Inductive answer (V : Type) : Type :=
| Cancelled
| Answered (v : V).
Arguments Cancelled {V}.
Arguments Answered {V} v.

(** The calls the three files make to the outside, indexed by the type of
    what they give back. *)
Inductive Eff : Type -> Type :=
| FsAccess (p : string) : Eff (result unit)
| FsMkdir (p : string) : Eff (result unit)
| FsRm (p : string) : Eff (result unit)
| FsReaddir (p : string) : Eff (result (list string))
| FsWriteFile (p data : string) : Eff (result unit)
| GetEnv (name : string) : Eff (option string)
| ExecSync (cmd : string) : Eff (result string)
| Exec (cmd cwd : string) : Eff (result unit)
| SelectBool (msg : string) (opts : list (string * bool)) : Eff (answer bool)
| Select (msg : string) (opts : list (string * string)) : Eff (answer string)
| Text (msg : string) (initialValue : option string) : Eff (answer string)
| ConsoleError (msg : string) (err : option JsError) : Eff unit
| ConsoleLog (msg : string) : Eff unit.

(** One entry of a trace: a call and what came back, or the exit of the
    process. *)
Inductive event : Type :=
| Ev {X : Type} (e : Eff X) (x : X)
| EvExit (code : Z).

(** ** Programs *)

(** A program returns, throws (an [async] function rejects), ends the
    process with [process.exit], or makes a call and goes on with the
    answer. *)
Inductive Prog (A : Type) : Type :=
| Ret (a : A)
| Throw (e : JsError)
| Exit (code : Z)
| Vis {X : Type} (e : Eff X) (k : X -> Prog A).
Arguments Ret {A} a.
Arguments Throw {A} e.
Arguments Exit {A} code.
Arguments Vis {A X} e k.

Fixpoint bind {A B : Type} (p : Prog A) (f : A -> Prog B) : Prog B :=
  match p with
  | Ret a => f a
  | Throw e => Throw e
  | Exit c => Exit c
  | Vis e k => Vis e (fun x => bind (k x) f)
  end.

Definition call {X : Type} (e : Eff X) : Prog X := Vis e Ret.

Declare Scope prog_scope.
Delimit Scope prog_scope with prog.
Bind Scope prog_scope with Prog.
Notation "'let*' x ':=' p 'in' k" := (bind p (fun x => k))
  (at level 10, x name, p at level 100, k at level 200) : prog_scope.
Notation "p '>>' k" := (bind p (fun _ => k))
  (at level 62, right associativity) : prog_scope.
Open Scope prog_scope.

(** [array.forEach(f)] for an [f] that makes calls. *)
Fixpoint forEach {A : Type} (l : list A) (f : A -> Prog unit) : Prog unit :=
  match l with
  | [] => Ret tt
  | a :: r => f a >> forEach r f
  end.

(** How a program ends. *)
Inductive outcome (A : Type) : Type :=
| Returned (a : A)
| Thrown (e : JsError)
| Exited (code : Z).
Arguments Returned {A} a.
Arguments Thrown {A} e.
Arguments Exited {A} code.

(** The environment: a state [W] and, for each call, its answer and the
    next state.  Nothing is assumed of it. *)
Definition handler (W : Type) : Type := forall X : Type, Eff X -> W -> X * W.

Record execution (A W : Type) : Type := Execution {
  out : outcome A;
  trace : list event;
  final : W
}.
Arguments Execution {A W} out trace final.
Arguments out {A W} e.
Arguments trace {A W} e.
Arguments final {A W} e.

Fixpoint run {W A : Type} (h : handler W) (p : Prog A) (w : W) : execution A W :=
  match p with
  | Ret a => Execution (Returned a) [] w
  | Throw e => Execution (Thrown e) [] w
  | Exit c => Execution (Exited c) [EvExit c] w
  | Vis e k =>
      let r := h _ e w in
      let ex := run h (k (fst r)) (snd r) in
      Execution (out ex) (Ev e (fst r) :: trace ex) (final ex)
  end.

(** * [file_utils.ts] *)

Module FileUtils.

(** Check if the given folder exists: [fs.access] resolved or rejected. *)
Definition isFolderExists (folderPath : string) : Prog bool :=
  let* r := call (FsAccess folderPath) in
  match r with
  | Ok _ => Ret true
  | Err _ => Ret false
  end.

(** Create a new folder at the specific path.  The [catch] block logs and
    does not throw again. *)
Definition createFolder (folderPath : string) : Prog unit :=
  let* r := call (FsMkdir folderPath) in
  match r with
  | Ok _ => Ret tt
  | Err e => call (ConsoleError ("Failed to create folder " +:+ folderPath) (Some e))
  end.

(** Remove a folder at the specified location ([fs.rm] with
    [{recursive: true}], which is what [FsRm] stands for). *)
Definition removeFolder (folderPath : string) : Prog unit :=
  let* r := call (FsRm folderPath) in
  match r with
  | Ok _ => Ret tt
  | Err e => call (ConsoleError ("Failed to remove folder " +:+ folderPath) (Some e))
  end.

(** List files within a directory. *)
Definition listFiles (folderPath : string) : Prog (list string) :=
  let* r := call (FsReaddir folderPath) in
  match r with
  | Ok names => Ret names
  | Err e =>
      call (ConsoleError ("Failed to list files in folder " +:+ folderPath) (Some e)) >>
      Ret []
  end.

(** Save data to a file.  Every caller in [cli_create.ts] passes a string,
    which is written as it is; the [JSON.stringify] branch for other data is
    not needed here.  The [catch] block logs and throws the error again. *)
Definition saveToFile (filePath data : string) : Prog unit :=
  let* r := call (FsWriteFile filePath data) in
  match r with
  | Ok _ => Ret tt
  | Err e =>
      call (ConsoleError ("Failed to write file " +:+ filePath +:+ ":") (Some e)) >>
      Throw e
  end.

End FileUtils.

(** * [cli_create.ts] *)

Module CliCreate.
Import FileUtils.

(** The option record, with the values its fields hold at run time. *)
Record AgentCreationOptions : Type := {
  agentName : string;
  forceYes : option bool;
  model : option string;
  apiKey : option string;
  project : option string;
  region : option string;
  language : option string
}.

(** [options.model = v], and so on: the source updates the record in place,
    the model passes the updated record along. *)
Definition set_model (o : AgentCreationOptions) (v : string) :=
  {| agentName := agentName o; forceYes := forceYes o; model := Some v;
     apiKey := apiKey o; project := project o; region := region o;
     language := language o |}.
Definition set_language (o : AgentCreationOptions) (v : string) :=
  {| agentName := agentName o; forceYes := forceYes o; model := model o;
     apiKey := apiKey o; project := project o; region := region o;
     language := Some v |}.
Definition set_project (o : AgentCreationOptions) (v : string) :=
  {| agentName := agentName o; forceYes := forceYes o; model := model o;
     apiKey := apiKey o; project := Some v; region := region o;
     language := language o |}.
Definition set_region (o : AgentCreationOptions) (v : string) :=
  {| agentName := agentName o; forceYes := forceYes o; model := model o;
     apiKey := apiKey o; project := project o; region := Some v;
     language := language o |}.
Definition set_apiKey (o : AgentCreationOptions) (v : string) :=
  {| agentName := agentName o; forceYes := forceYes o; model := model o;
     apiKey := Some v; project := project o; region := region o;
     language := language o |}.

(** [v === s] for a [string | undefined]. *)
Definition strict_eq (v : option string) (s : string) : bool :=
  match v with
  | Some x => String.eqb x s
  | None => false
  end.

(** [await execPromise(cmd, {cwd})]: a rejection is not caught. *)
Definition execPromise (cmd cwd : string) : Prog unit :=
  let* r := call (Exec cmd cwd) in
  match r with
  | Ok _ => Ret tt
  | Err e => Throw e
  end.

(** [a.toString()] on what a prompt resolved to. *)
Definition answer_toString {host : Host} (a : answer string) : string :=
  match a with
  | Cancelled => cancel_text
  | Answered s => s
  end.

Section WithHost.
Context {host : Host}.

Definition dirname : string := process_cwd.

Definition TS_CONFIG : string :=
  js_trim (js_join nl [
    rq "{";
    rq "  ^compilerOptions^: {";
    rq "    ^target^: ^esnext^,";
    rq "    ^module^: ^nodenext^,";
    rq "    ^rootDir^: ^./^,";
    rq "    ^outDir^: ^dist^,";
    rq "    ^allowUnreachableCode^: false,";
    rq "    ^allowUnusedLabels^: false,";
    rq "    ^declaration^: true,";
    rq "    ^declarationMap^: true,";
    rq "    ^esModuleInterop^: true,";
    rq "    ^exactOptionalPropertyTypes^: true,";
    rq "    ^noEmitOnError^: true,";
    rq "    ^noFallthroughCasesInSwitch^: true,";
    rq "    ^noImplicitReturns^: true,";
    rq "    ^noUncheckedIndexedAccess^: true,";
    rq "    ^pretty^: true,";
    rq "    ^skipLibCheck^: true,";
    rq "    ^sourceMap^: true,";
    rq "    ^strict^: true";
    rq "  }";
    rq "}";
    EmptyString ]).

Definition PACKAGE_JSON (agentName language : string) : string :=
  js_trim (js_join nl [
    EmptyString;
    rq "{";
    rq "  ^name^: ^" +:+ agentName +:+ rq "^,";
    rq "  ^version^: ^1.0.0^,";
    rq "  ^description^: ^^,";
    rq "  ^main^: ^agent." +:+ language +:+ rq "^,";
    rq "  ^scripts^: {";
    rq "    ^web^: ^npx @google/adk-devtools web^,";
    rq "    ^cli^: ^npx @google/adk-devtools run agent." +:+ language +:+ rq "^";
    rq "  },";
    rq "  ^keywords^: [],";
    rq "  ^author^: ^^,";
    rq "  ^license^: ^ISC^";
    rq "}";
    EmptyString ]).

Definition AGENT_TEMPLATE (model : string) : string :=
  js_trim (js_join nl [
    EmptyString;
    "import {FunctionTool, LlmAgent} from '@google/adk';";
    "import {z} from 'zod';";
    "import dotenv from 'dotenv';";
    EmptyString;
    "dotenv.config();";
    EmptyString;
    "/* Mock tool implementation */";
    "const getCurrentTime = new FunctionTool({";
    "  name: 'get_current_time',";
    "  description: 'Returns the current time in a specified city.',";
    "  parameters: z.object({";
    rq "    city: z.string().describe(^The name of the city for which to retrieve the current time.^),";
    "  }),";
    "  execute: ({city}) => {";
    "    return {status: 'success', report: `The current time in ${ city } is 10: 30 AM`};";
    "  },";
    "});";
    EmptyString;
    "export const rootAgent = new LlmAgent({";
    "  name: 'hello_time_agent',";
    "  model: '" +:+ model +:+ "',";
    "  description: 'Tells the current time in a specified city.',";
    "  instruction: `You are a helpful assistant that tells the current time in a city.";
    "                Use the 'getCurrentTime' tool for this purpose.`,";
    "  tools: [getCurrentTime],";
    "});";
    EmptyString ]).

Arguments TS_CONFIG : simpl never.
Arguments PACKAGE_JSON : simpl never.
Arguments AGENT_TEMPLATE : simpl never.

(** The environment variable is read once: the source tests it and returns
    it in the next statement, with nothing in between. *)
Definition getGcpProject : Prog string :=
  let* v := call (GetEnv "GOOGLE_CLOUD_PROJECT") in
  if truthy v then Ret (to_str v)
  else
    let* r := call (ExecSync "gcloud config get-value project") in
    match r with
    | Ok stdout => Ret (js_trim stdout)
    | Err _ => Ret EmptyString
    end.

Definition getGcpRegion : Prog string :=
  let* v := call (GetEnv "GOOGLE_CLOUD_LOCATION") in
  if truthy v then Ret (to_str v)
  else
    let* r := call (ExecSync "gcloud config get-value compute/region") in
    match r with
    | Ok stdout => Ret (js_trim stdout)
    | Err _ => Ret EmptyString
    end.

Definition generateAgentFolder (agentDir : string) (forceYes : option bool)
  : Prog unit :=
  let* folderExists := isFolderExists agentDir in
  if negb folderExists then createFolder agentDir
  else
    let* overwriteFolderResponse :=
      (if truthy_flag forceYes then Ret (Answered true)
       else call (SelectBool
              ("Folder " +:+ agentDir +:+
               " already exists. Would you like to overwrite existing folder?")
              [("Yes", true); ("No", false)])) in
    match overwriteFolderResponse with
    | Cancelled => Exit 0
    | Answered false =>
        call (ConsoleError ("Agent directory " +:+ agentDir +:+ " already exists.")
                None) >>
        Exit 0
    | Answered true => removeFolder agentDir >> createFolder agentDir
    end.

(** The array [lines] that [generateEnvFile] fills. *)
Definition env_lines (options : AgentCreationOptions) : list string :=
  (if truthy (apiKey options)
   then ["GOOGLE_API_KEY=" +:+ to_str (apiKey options);
         "GOOGLE_GENAI_USE_VERTEXAI=0"]
   else []) ++
  (if truthy (project options)
   then ["GOOGLE_CLOUD_PROJECT=" +:+ to_str (project options)]
   else []) ++
  (if truthy (region options)
   then ["GOOGLE_CLOUD_LOCATION=" +:+ to_str (region options)]
   else []) ++
  (if truthy (region options) && truthy (project options)
   then ["GOOGLE_GENAI_USE_VERTEXAI=1"]
   else []).

Definition generateEnvFile (options : AgentCreationOptions) : string :=
  js_join nl (env_lines options).

Definition generateFiles (options : AgentCreationOptions) : Prog unit :=
  let agentDir := path_join dirname (agentName options) in
  saveToFile (path_join agentDir ("agent." +:+ to_str (language options)))
    (AGENT_TEMPLATE (if truthy (model options) then to_str (model options)
                     else "gemini-2.5-flash")) >>
  saveToFile (path_join agentDir ".env") (generateEnvFile options) >>
  saveToFile (path_join agentDir "package.json")
    (PACKAGE_JSON (agentName options) (to_str (language options))) >>
  if strict_eq (language options) "ts"
  then saveToFile (path_join agentDir "tsconfig.json") TS_CONFIG
  else Ret tt.

(** [createAgent] is one function in the source.  Its body is cut here at
    the blank lines of the source into the blocks it runs one after the
    other; [createAgent] below puts them back together in order. *)

(** Lines 183-205: the model of the root agent. *)
Definition chooseModel (options : AgentCreationOptions)
  : Prog AgentCreationOptions :=
  if negb (truthy (model options)) then
    let* model :=
      (if truthy_flag (forceYes options) then Ret (Answered "gemini-2.5-flash")
       else call (Select "Choose a model for the root agent"
              [("gemini-2.5-flash", "gemini-2.5-flash");
               ("gemini-2.5-pro", "gemini-2.5-pro");
               ("gemini-3-flash-preview", "gemini-3-flash-preview");
               ("gemini-3-pro-preview", "gemini-3-pro-preview")])) in
    match model with
    | Cancelled => Exit 0
    | Answered m => Ret (set_model options m)
    end
  else Ret options.

(** Lines 207-224: the language of the agent. *)
Definition chooseLanguage (options : AgentCreationOptions)
  : Prog AgentCreationOptions :=
  if negb (strict_eq (language options) "js") &&
     negb (strict_eq (language options) "ts") then
    let* language :=
      (if truthy_flag (forceYes options) then Ret (Answered "ts")
       else call (Select "Choose a language for the agent"
              [("TypeScript", "ts"); ("JavaScript", "js")])) in
    match language with
    | Cancelled => Exit 0
    | Answered l => Ret (set_language options l)
    end
  else Ret options.

(** Lines 243-271: the project and the region of the hosted backend.  The
    answer to the project prompt goes through [toString] before [isCancel]
    sees it, and [isCancel] of a string is false: the exit of lines 257-259
    is never taken. *)
Definition chooseVertex (options : AgentCreationOptions)
  : Prog AgentCreationOptions :=
  let* defaultProject := getGcpProject in
  let* defaultRegion := getGcpRegion in
  let* projectResponse :=
    (if truthy_flag (forceYes options) then Ret defaultProject
     else let* a := call (Text "Enter the Google Cloud Project ID"
                            (Some defaultProject)) in
          Ret (answer_toString a)) in
  let options := set_project options projectResponse in
  let* regionResponse :=
    (if truthy_flag (forceYes options) then Ret (Answered defaultRegion)
     else call (Text "Enter the Google Cloud Region" (Some defaultRegion))) in
  match regionResponse with
  | Cancelled => Exit 0
  | Answered r => Ret (set_region options r)
  end.

(** Lines 272-285: the key of the direct backend. *)
Definition chooseApiKey (options : AgentCreationOptions)
  : Prog AgentCreationOptions :=
  let* apiKeyResponse :=
    (if truthy_flag (forceYes options) then Ret (Answered EmptyString)
     else call (Text "Enter the Google API Key" None)) in
  match apiKeyResponse with
  | Cancelled => Exit 0
  | Answered k => Ret (set_apiKey options k)
  end.

(** Lines 226-286: the backend. *)
Definition chooseBackend (options : AgentCreationOptions)
  : Prog AgentCreationOptions :=
  if negb (truthy (apiKey options)) && negb (truthy (project options)) then
    let* backend :=
      (if truthy_flag (forceYes options) then Ret (Answered "googleai")
       else call (Select "Choose a backend"
              [("Google AI", "googleai"); ("Vertex AI", "vertex")])) in
    match backend with
    | Cancelled => Exit 0
    | Answered b =>
        if String.eqb b "vertex" then chooseVertex options
        else chooseApiKey options
    end
  else Ret options.

(** Lines 289-294: the two calls of the package manager. *)
Definition installDependencies (agentDir : string)
    (options : AgentCreationOptions) : Prog unit :=
  (if strict_eq (language options) "ts"
   then execPromise "npm install typescript --save-dev" agentDir
   else Ret tt) >>
  execPromise "npm install @google/adk @google/adk-devtools zod@3.25.76 dotenv"
    agentDir.

(** Lines 296-302: the summary. *)
Definition reportFiles (agentDir : string) (options : AgentCreationOptions)
  : Prog unit :=
  let* files := listFiles agentDir in
  call (ConsoleLog (nl +:+ "Created the following files in " +:+ agentDir +:+ ":")) >>
  forEach files (fun file => call (ConsoleLog ("  - " +:+ file))) >>
  call (ConsoleLog ("Run 'cd " +:+ agentName options +:+
                    " && npm run web' to start the agent in a web interface")).

Definition createAgent (options : AgentCreationOptions) : Prog unit :=
  let agentDir := path_join dirname (agentName options) in
  generateAgentFolder agentDir (forceYes options) >>
  let* options := chooseModel options in
  let* options := chooseLanguage options in
  let* options := chooseBackend options in
  generateFiles options >>
  installDependencies agentDir options >>
  reportFiles agentDir options.

(** The statements of [createAgent] before the call of [generateFiles], as a
    program of their own: what it returns is the record that reaches file
    generation. *)
Definition untilGeneration (options : AgentCreationOptions)
  : Prog AgentCreationOptions :=
  generateAgentFolder (path_join dirname (agentName options)) (forceYes options) >>
  let* options := chooseModel options in
  let* options := chooseLanguage options in
  chooseBackend options.

(** The statements of [createAgent] from [generateFiles] on. *)
Definition fromGeneration (agentDir : string) (options : AgentCreationOptions)
  : Prog unit :=
  generateFiles options >>
  installDependencies agentDir options >>
  reportFiles agentDir options.

End WithHost.
End CliCreate.

(** * The [create] command of the router *)

Module Cli.
Import CliCreate.

(** The object literal that the action of [program.command('create')] passes
    to [createAgent].  [options] is what the argument parser collected, a
    [Record<string, string>]; a key that was not given on the command line
    reads as [undefined].  The literal has no [forceYes] property, and the
    command declares no option for one. *)
Definition create_options (agentName : string) (options : gmap string string)
  : AgentCreationOptions :=
  {| agentName := agentName;
     forceYes := None;
     model := options !! "model";
     apiKey := options !! "api_key";
     project := options !! "project";
     region := options !! "region";
     language := options !! "language" |}.

Definition create_action {host : Host} (agentName : string)
    (options : gmap string string) : Prog unit :=
  createAgent (create_options agentName options).

End Cli.

(** * A reference environment

    An environment small enough to run the workflow in, used for the
    examples below; the theorems quantify over every environment. *)

Module Ref.

(** A POSIX-like host: paths joined by a slash (no normalisation), [trim]
    over the ASCII white space. *)
Definition is_space (c : ascii) : bool :=
  let n := nat_of_ascii c in
  (Nat.leb 9 n && Nat.leb n 13) || Nat.eqb n 32.

Fixpoint trim_start (s : string) : string :=
  match s with
  | EmptyString => EmptyString
  | String c r => if is_space c then trim_start r else s
  end.

Fixpoint trim_end (s : string) : string :=
  match s with
  | EmptyString => EmptyString
  | String c r =>
      match trim_end r with
      | EmptyString => if is_space c then EmptyString else String c EmptyString
      | r' => String c r'
      end
  end.

#[export] Instance posix : Host := {|
  path_join a b := a +:+ "/" +:+ b;
  js_trim s := trim_end (trim_start s);
  process_cwd := "/work";
  cancel_text := "Symbol(clack:cancel)"
|}.

Inductive node : Type :=
| Dir
| File (data : string).

(** The file system is a list of absolute paths with what is there; the
    prompts are answered from two queues, in order. *)
Record world : Type := World {
  fs : list (string * node);
  env : list (string * string);
  gcloud : list (string * string);
  npm_broken : list string;
  keyboard : list (answer string);
  confirm : list (answer bool);
  console : list string
}.

Fixpoint lookup {V : Type} (k : string) (l : list (string * V)) : option V :=
  match l with
  | [] => None
  | (k', v) :: r => if String.eqb k k' then Some v else lookup k r
  end.

Definition remove_tree (p : string) (l : list (string * node))
  : list (string * node) :=
  filter (fun kv => negb (String.eqb (fst kv) p ||
                          starts_with (p +:+ "/") (fst kv))) l.

Definition with_fs (w : world) (f : list (string * node)) : world :=
  World f (env w) (gcloud w) (npm_broken w) (keyboard w) (confirm w) (console w).
Definition with_console (w : world) (line : string) : world :=
  World (fs w) (env w) (gcloud w) (npm_broken w) (keyboard w) (confirm w)
    (console w ++ [line]).

Definition handle : handler world :=
  fun X e w =>
    match e in Eff X return X * world with
    | FsAccess p =>
        (match lookup p (fs w) with Some _ => Ok tt | None => Err "ENOENT" end, w)
    | FsMkdir p =>
        match lookup p (fs w) with
        | Some _ => (Err "EEXIST", w)
        | None => (Ok tt, with_fs w (fs w ++ [(p, Dir)]))
        end
    | FsRm p =>
        match lookup p (fs w) with
        | Some _ => (Ok tt, with_fs w (remove_tree p (fs w)))
        | None => (Err "ENOENT", w)
        end
    | FsReaddir p =>
        match lookup p (fs w) with
        | Some Dir =>
            (Ok (map (fun kv => substring (S (String.length p))
                                  (String.length (fst kv)) (fst kv))
                   (filter (fun kv => starts_with (p +:+ "/") (fst kv)) (fs w))),
             w)
        | Some (File _) => (Err "ENOTDIR", w)
        | None => (Err "ENOENT", w)
        end
    | FsWriteFile p data =>
        match lookup p (fs w) with
        | Some Dir => (Err "EISDIR", w)
        | _ => (Ok tt, with_fs w (filter (fun kv => negb (String.eqb (fst kv) p))
                                    (fs w) ++ [(p, File data)]))
        end
    | GetEnv name => (lookup name (env w), w)
    | ExecSync cmd =>
        (match lookup cmd (gcloud w) with
         | Some stdout => Ok stdout
         | None => Err "Command failed"
         end, w)
    | Exec cmd cwd =>
        (if existsb (String.eqb cmd) (npm_broken w) then Err "Command failed"
         else Ok tt, w)
    | SelectBool _ _ =>
        match confirm w with
        | a :: r => (a, World (fs w) (env w) (gcloud w) (npm_broken w)
                          (keyboard w) r (console w))
        | [] => (Cancelled, w)
        end
    | Select _ _ | Text _ _ =>
        match keyboard w with
        | a :: r => (a, World (fs w) (env w) (gcloud w) (npm_broken w)
                          r (confirm w) (console w))
        | [] => (Cancelled, w)
        end
    | ConsoleError msg _ => (tt, with_console w msg)
    | ConsoleLog msg => (tt, with_console w msg)
    end.

(** An empty machine: nothing on disk but the working directory, no
    variable set, no cloud tool, a package manager that works, nobody at the
    keyboard. *)
Definition empty : world :=
  World [("/work", Dir)] [] [] [] [] [] [].

End Ref.

(** * The vocabulary of the statements *)

(** ** What a trace shows *)

(** Kinds of calls. *)
Definition is_prompt_call (X : Type) (e : Eff X) : bool :=
  match e with
  | SelectBool _ _ | Select _ _ | Text _ _ => true
  | _ => false
  end.

Definition is_write_call (X : Type) (e : Eff X) : bool :=
  match e with
  | FsWriteFile _ _ => true
  | _ => false
  end.

Definition is_exec_call (X : Type) (e : Eff X) : bool :=
  match e with
  | Exec _ _ => true
  | _ => false
  end.

(** A call that changes the disk or starts a process. *)
Definition is_destructive_call (X : Type) (e : Eff X) : bool :=
  match e with
  | FsMkdir _ | FsRm _ | FsWriteFile _ _ | Exec _ _ => true
  | _ => false
  end.

Definition event_is (kind : forall X, Eff X -> bool) (ev : event) : bool :=
  match ev with
  | Ev e _ => kind _ e
  | EvExit _ => false
  end.

(** The entry is a call of the prompt library ([select] or [text]). *)
Definition is_prompt : event -> bool := event_is is_prompt_call.

(** The entry changes the disk or starts a process. *)
Definition is_destructive : event -> bool := event_is is_destructive_call.

(** The path and the data of a [fs.writeFile]. *)
Definition write_call (ev : event) : option (string * string) :=
  match ev with
  | Ev e _ =>
      match e with
      | FsWriteFile p data => Some (p, data)
      | _ => None
      end
  | EvExit _ => None
  end.

(** The command and the working directory of an [exec]. *)
Definition exec_call (ev : event) : option (string * string) :=
  match ev with
  | Ev e _ =>
      match e with
      | Exec cmd cwd => Some (cmd, cwd)
      | _ => None
      end
  | EvExit _ => None
  end.

Definition write_calls (tr : list event) : list (string * string) :=
  omap write_call tr.
Definition exec_calls (tr : list event) : list (string * string) :=
  omap exec_call tr.

(** ** Programs that never make a kind of call *)

Fixpoint avoids {A} (kind : forall X, Eff X -> bool) (p : Prog A) : Prop :=
  match p with
  | Vis e k => kind _ e = false /\ forall x, avoids kind (k x)
  | _ => True
  end.

(** What every returned value satisfies. *)
Fixpoint returns {A} (p : Prog A) (P : A -> Prop) : Prop :=
  match p with
  | Ret a => P a
  | Vis e k => forall x, returns (k x) P
  | _ => True
  end.

(** A program that returns whatever the environment answers: it neither
    throws nor ends the process. *)
Fixpoint always_returns {A} (p : Prog A) : Prop :=
  match p with
  | Ret _ => True
  | Vis e k => forall x, always_returns (k x)
  | _ => False
  end.

(** ** Calls that failed *)

(** The entry is a [fs.writeFile] that was rejected. *)
Definition failed_write (ev : event) : bool :=
  match ev with
  | Ev e x =>
      match e in Eff X return X -> bool with
      | FsWriteFile _ _ => fun r => match r with Ok _ => false | Err _ => true end
      | _ => fun _ => false
      end x
  | EvExit _ => false
  end.

(** ** The environment file *)

(** The line that turns the hosted backend on, and the test for a line that
    gives the key of the direct backend. *)
Definition hosted_line : string := "GOOGLE_GENAI_USE_VERTEXAI=1".
Definition is_key_line (l : string) : bool := starts_with "GOOGLE_API_KEY=" l.

(** A text in which both backends show: it has a key line and the line that
    turns the hosted backend on. *)
Definition both_backends (content : string) : Prop :=
  existsb is_key_line (lines_of content) = true /\
  In hosted_line (lines_of content).

Section Vocabulary.
Import CliCreate.

(** No value of the three credentials has a line feed in it. *)
Definition values_one_line (o : AgentCreationOptions) : bool :=
  one_line (to_str (apiKey o)) && one_line (to_str (project o)) &&
  one_line (to_str (region o)).

(** All three credentials are given. *)
Definition all_credentials (o : AgentCreationOptions) : bool :=
  truthy (apiKey o) && truthy (project o) && truthy (region o).

(** ** What the decision points may change

    [o] is the record at the entry of a block, [o'] the record it returns. *)

Definition same_identity (o o' : AgentCreationOptions) : Prop :=
  agentName o' = agentName o /\ forceYes o' = forceYes o.

Definition same_credentials (o o' : AgentCreationOptions) : Prop :=
  apiKey o' = apiKey o /\ project o' = project o /\ region o' = region o.

(** The backend block leaves the credentials alone when a key or a project
    was given; otherwise it sets the key, or the project and the region,
    never both. *)
Definition backend_choice (o o' : AgentCreationOptions) : Prop :=
  if truthy (apiKey o) || truthy (project o)
  then same_credentials o o'
  else (project o' = project o /\ region o' = region o) \/
       apiKey o' = apiKey o.

(** ** The files and the installs of a record *)

Context {host : Host}.

(** The four candidate files of the specification, in its order: agent
    source, environment file, manifest and, for the typed variant, the
    configuration of the type checker; each with its path and its text. *)
Definition candidate_files (o : AgentCreationOptions) : list (string * string) :=
  let agentDir := path_join dirname (agentName o) in
  [ (path_join agentDir ("agent." +:+ to_str (language o)),
     AGENT_TEMPLATE (if truthy (model o) then to_str (model o)
                     else "gemini-2.5-flash"));
    (path_join agentDir ".env", generateEnvFile o);
    (path_join agentDir "package.json",
     PACKAGE_JSON (agentName o) (to_str (language o))) ] ++
  (if strict_eq (language o) "ts"
   then [(path_join agentDir "tsconfig.json", TS_CONFIG)]
   else []).

(** The install of the type checker as a development-only dependency, and
    the install of what a generated agent needs to run. *)
Definition typescript_install : string := "npm install typescript --save-dev".
Definition main_install : string :=
  "npm install @google/adk @google/adk-devtools zod@3.25.76 dotenv".

(** [createAgent] up to the first statement of the installer: the run
    reaches dependency installation when this program returns, and it
    returns the record the installer sees. *)
Definition untilInstall (o : AgentCreationOptions) : Prog AgentCreationOptions :=
  let* o' := untilGeneration o in
  generateFiles o' >> Ret o'.

(** ** The contract of a probe

    What [getGcpProject] and [getGcpRegion] keep, for the variable [var]
    and the command [cmd]: a variable that is set to a non-empty value is
    returned and no command is run; otherwise (the variable is not set, or
    it is set to the empty string) the command is run with [execSync] and
    its trimmed output is returned, or the empty string when it fails; the
    probe returns in every case. *)
Definition probe_contract (var cmd : string) (probe : Prog string) : Prop :=
  forall (W : Type) (h : handler W) (w : W),
    let v := fst (h _ (GetEnv var) w) in
    let w1 := snd (h _ (GetEnv var) w) in
    let r := fst (h _ (ExecSync cmd) w1) in
    (truthy v = true ->
     out (run h probe w) = Returned (to_str v) /\
     trace (run h probe w) = [Ev (GetEnv var) v]) /\
    (truthy v = false ->
     trace (run h probe w) = [Ev (GetEnv var) v; Ev (ExecSync cmd) r] /\
     (forall stdout, r = Ok stdout ->
                     out (run h probe w) = Returned (js_trim stdout)) /\
     (forall e, r = Err e -> out (run h probe w) = Returned EmptyString)) /\
    (exists s, out (run h probe w) = Returned s).

End Vocabulary.

(** ** Example records *)

Module Examples.
Import CliCreate.

(** Scenario A of the specification: only a name, in force mode. *)
Definition weather_bot : AgentCreationOptions :=
  {| agentName := "weather_bot"; forceYes := Some true; model := None;
     apiKey := None; project := None; region := None; language := None |}.

(** Scenario D: a project and a region, no key, in force mode. *)
Definition acme : AgentCreationOptions :=
  {| agentName := "acme_bot"; forceYes := Some true; model := None;
     apiKey := None; project := Some "acme"; region := Some "us-central1";
     language := None |}.

(** A key, a project and a region, all given on the command line. *)
Definition overdetermined : AgentCreationOptions :=
  {| agentName := "bot"; forceYes := None; model := Some "gemini-2.5-pro";
     apiKey := Some "k"; project := Some "p"; region := Some "r";
     language := Some "js" |}.

(** A machine on which the folder of [weather_bot] is there already, with a
    file of the user in it, and somebody at the keyboard who says no. *)
Definition occupied : Ref.world :=
  Ref.World [("/work", Ref.Dir); ("/work/weather_bot", Ref.Dir);
             ("/work/weather_bot/notes.txt", Ref.File "keep me")]
    [] [] [] [] [Answered false] [].

(** [weather_bot] as it reaches file generation on a machine without
    keyboard. *)
Definition weather_bot_resolved : AgentCreationOptions :=
  {| agentName := "weather_bot"; forceYes := Some true;
     model := Some "gemini-2.5-flash"; apiKey := Some EmptyString;
     project := None; region := None; language := Some "ts" |}.

(** [weather_bot] without the force flag. *)
Definition weather_bot_asking : AgentCreationOptions :=
  {| agentName := "weather_bot"; forceYes := Some false; model := None;
     apiKey := None; project := None; region := None; language := None |}.

(** A machine with the cloud tool configured and one variable set. *)
Definition cloudy : Ref.world :=
  Ref.World [("/work", Ref.Dir)]
    [("GOOGLE_CLOUD_LOCATION", "europe-west1")]
    [("gcloud config get-value project", "  my-project" +:+ nl)]
    [] [] [] [].

End Examples.

(** * More of the code

    The functions of [file_utils.ts] and of the router that the workflow
    above does not call, and the vocabulary of what is proved of them and
    of the workflow further down. *)

From Stdlib Require DecimalString.

(** ** Strings, continued *)

(** [s.includes(sub)]. *)
Fixpoint includes (sub s : string) : bool :=
  starts_with sub s ||
  match s with
  | EmptyString => false
  | String _ r => includes sub r
  end.

(** [s.split(sep)] for a separator that is not empty: the text is read from
    the left, each occurrence of the separator ends a piece and is skipped
    whole ([skip] counts what is left of it to skip). *)
Fixpoint split_from (sep : string) (skip : nat) (s : string) : list string :=
  match s with
  | EmptyString => [EmptyString]
  | String c r =>
      match skip with
      | S k => split_from sep k r
      | O =>
          if starts_with sep s
          then EmptyString :: split_from sep (String.length sep - 1) r
          else match split_from sep 0 r with
               | [] => [String c EmptyString]
               | piece :: pieces => String c piece :: pieces
               end
      end
  end.

(** [s.split(sep)]; the empty separator cuts between all characters. *)
Definition js_split (sep s : string) : list string :=
  match sep with
  | EmptyString =>
      map (fun c => String c EmptyString) (list_ascii_of_string s)
  | _ => split_from sep 0 s
  end.

(** [s.replace(/^-+/, '')]: the text without its leading dashes. *)
Fixpoint strip_dashes (s : string) : string :=
  match s with
  | String c r => if Ascii.eqb c "-" then strip_dashes r else s
  | EmptyString => EmptyString
  end.


(** ** [file_utils.ts]: the search for a file *)

Module FileSearch.
Import FileUtils.

Section WithHost.
Context {host : Host}.

(** How the host prints a number in a template literal. *)
Variable number_text : Z -> string.

(** The [for] loop of [tryToFindFileRecursively] with [n] rounds to go;
    [notFound] is what follows the loop. *)
Fixpoint search (fileName : string) (n : nat) (currentFolder : string)
    (notFound : Prog string) : Prog string :=
  match n with
  | O => notFound
  | S n' =>
      let filePath := path_join currentFolder fileName in
      let* found := isFolderExists filePath in
      if found then Ret filePath
      else search fileName n' (path_join currentFolder "../") notFound
  end.

(** Try to find a file recursively in the given folder.  [maxIterations] is
    an integer (one that a JavaScript number holds exactly): the loop makes
    that many rounds, none when it is not positive. *)
Definition tryToFindFileRecursively (sourceFolder fileName : string)
    (maxIterations : Z) : Prog string :=
  search fileName (Z.to_nat maxIterations) sourceFolder
    (Throw ("No " +:+ fileName +:+ " found in " +:+ sourceFolder +:+
            " or its parent folders up to " +:+ number_text maxIterations +:+
            " levels.")).

(** The paths that [n] rounds look at, in order: the file in the folder, in
    its parent, in the parent of that, and so on. *)
Fixpoint candidates (fileName : string) (n : nat) (folder : string)
  : list string :=
  match n with
  | O => []
  | S n' =>
      path_join folder fileName ::
      candidates fileName n' (path_join folder "../")
  end.

End WithHost.
End FileSearch.

(** The decimal text of an integer, which is what a template literal prints
    for it below 10^21; it serves in the examples. *)
Definition decimal_text (z : Z) : string :=
  DecimalString.NilZero.string_of_int (Z.to_int z).

(** The checks for existence of a trace: the path and whether it was there. *)
Definition access_result (ev : event) : option (string * bool) :=
  match ev with
  | Ev e x =>
      match e in Eff X return X -> option (string * bool) with
      | FsAccess p =>
          fun r => Some (p, match r with Ok _ => true | Err _ => false end)
      | _ => fun _ => None
      end x
  | EvExit _ => None
  end.

Definition access_results (tr : list event) : list (string * bool) :=
  omap access_result tr.

(** A call other than [fs.access]. *)
Definition is_not_access_call (X : Type) (e : Eff X) : bool :=
  match e with
  | FsAccess _ => false
  | _ => true
  end.

(** ** The router: artifact services and extra arguments *)

Module Router.

(** What [new GcsArtifactService(bucket)] is given; [None] stands for
    [undefined]. *)
Inductive ArtifactService : Type :=
| GcsArtifactService (bucket : option string).

(** The function returns the service or throws an [Error]. *)
Definition getArtifactServiceFromUri (uri : string) : result ArtifactService :=
  if starts_with "gs://" uri then
    let bucket := js_split "://" uri !! 1%nat in
    Ok (GcsArtifactService bucket)
  else Err ("Unsupported artifact service URI: " +:+ uri).

(** The name of a command-line word, as the action of [deploy cloud_run]
    computes it (lines 235-238): without leading dashes and, if there is an
    equals sign, up to the first one. *)
Definition arg_name (arg : string) : string :=
  let argName := strip_dashes arg in
  if includes "=" argName then to_str (js_split "=" argName !! 0%nat)
  else argName.

Section WithOptions.
Context {V : Type}.

(** The names that every options object inherits from its prototype (for
    the [in] operator); they belong to the host. *)
Variable inherited : string -> bool.

(** [k in options]. *)
Definition has_property (options : gmap string V) (k : string) : bool :=
  bool_decide (is_Some (options !! k)) || inherited k.

(** The body of the [for] loop over [process.argv.slice(5)] (lines
    234-244), with the array it pushes to. *)
Fixpoint collect_extra (options : gmap string V) (args : list string)
    (extraGcloudArgs : list string) : list string :=
  match args with
  | [] => extraGcloudArgs
  | arg :: rest =>
      if has_property options (arg_name arg)
      then collect_extra options rest extraGcloudArgs
      else collect_extra options rest (extraGcloudArgs ++ [arg])
  end.

(** The [extraGcloudArgs] that the action hands to [deployToCloudRun]. *)
Definition extraGcloudArgs (options : gmap string V) (argv : list string)
  : list string :=
  collect_extra options (drop 5 argv) [].

End WithOptions.
End Router.

(** ** More of what a trace shows *)

(** Calls that find out about the machine: [process.env], [execSync]. *)
Definition is_probe_call (X : Type) (e : Eff X) : bool :=
  match e with
  | GetEnv _ | ExecSync _ => true
  | _ => false
  end.

(** The questions about the configuration: [select] over strings and
    [text].  The question about the overwrite of the folder is the only
    [select] over booleans. *)
Definition is_question_call (X : Type) (e : Eff X) : bool :=
  match e with
  | Select _ _ | Text _ _ => true
  | _ => false
  end.

(** What the workflow does before it writes: it looks at the disk and at
    the machine, removes and creates the folder, and asks. *)
Definition is_setup_call (X : Type) (e : Eff X) : bool :=
  match e with
  | FsAccess _ | FsMkdir _ | FsRm _ | GetEnv _ | ExecSync _
  | SelectBool _ _ | Select _ _ | Text _ _ => true
  | _ => false
  end.

(** What it does from the first write on: it writes, installs, lists and
    reports. *)
Definition is_output_call (X : Type) (e : Eff X) : bool :=
  match e with
  | FsWriteFile _ _ | Exec _ _ | FsReaddir _ | ConsoleLog _ => true
  | _ => false
  end.

(** The listing and the lines of the summary. *)
Definition is_report_call (X : Type) (e : Eff X) : bool :=
  match e with
  | FsReaddir _ | ConsoleLog _ => true
  | _ => false
  end.

(** The entry is an [exec] that was rejected. *)
Definition failed_exec (ev : event) : bool :=
  match ev with
  | Ev e x =>
      match e in Eff X return X -> bool with
      | Exec _ _ => fun r => match r with Ok _ => false | Err _ => true end
      | _ => fun _ => false
      end x
  | EvExit _ => false
  end.

(** The removals and creations of folders, in order. *)
Inductive folder_op : Type :=
| Removed (p : string)
| Created (p : string).

Definition folder_call (ev : event) : option folder_op :=
  match ev with
  | Ev e _ =>
      match e with
      | FsRm p => Some (Removed p)
      | FsMkdir p => Some (Created p)
      | _ => None
      end
  | EvExit _ => None
  end.

Definition folder_calls (tr : list event) : list folder_op :=
  omap folder_call tr.

(** ** Cancelled prompts *)

Definition project_question : string := "Enter the Google Cloud Project ID".

(** The entry is a prompt that the user cancelled, other than the prompt
    for the project. *)
Definition cancelled_prompt (ev : event) : bool :=
  match ev with
  | Ev e x =>
      match e in Eff X return X -> bool with
      | SelectBool _ _ | Select _ _ =>
          fun a => match a with Cancelled => true | Answered _ => false end
      | Text msg _ =>
          fun a => match a with
                   | Cancelled => negb (String.eqb msg project_question)
                   | Answered _ => false
                   end
      | _ => fun _ => false
      end x
  | EvExit _ => false
  end.

(** In the program, every prompt other than the one for the project is
    followed, when it is cancelled, by the exit with status 0 and nothing
    else. *)
Fixpoint exits_on_cancel {A} (p : Prog A) : Prop :=
  match p with
  | Vis e k =>
      match e in Eff X return (X -> Prog A) -> Prop with
      | SelectBool _ _ | Select _ _ => fun k => k Cancelled = Exit 0
      | Text msg _ =>
          fun k => String.eqb msg project_question = false ->
                   k Cancelled = Exit 0
      | _ => fun _ => True
      end k /\
      forall x, exits_on_cancel (k x)
  | _ => True
  end.

(** A program without [process.exit]. *)
Fixpoint never_exits {A} (p : Prog A) : Prop :=
  match p with
  | Exit _ => False
  | Vis e k => forall x, never_exits (k x)
  | _ => True
  end.

(** ** The defaults of force mode *)

Section ForceDefaults.
Import CliCreate.

(** What the three decision points make of a record in force mode: the
    first model of the list when none is given, [ts] when the language is
    neither [js] nor [ts], and the empty key when there is neither a key nor
    a project. *)
Definition force_model (o : AgentCreationOptions) : AgentCreationOptions :=
  if truthy (model o) then o else set_model o "gemini-2.5-flash".

Definition force_language (o : AgentCreationOptions) : AgentCreationOptions :=
  if strict_eq (language o) "js" || strict_eq (language o) "ts" then o
  else set_language o "ts".

Definition force_backend (o : AgentCreationOptions) : AgentCreationOptions :=
  if truthy (apiKey o) || truthy (project o) then o
  else set_apiKey o EmptyString.

Definition force_defaults (o : AgentCreationOptions) : AgentCreationOptions :=
  force_backend (force_language (force_model o)).

End ForceDefaults.

(** ** More examples *)

Module MoreExamples.

(** Somebody at the keyboard who cancels the prompt for the project and
    then types a region. *)
Definition cancels_project : Ref.world :=
  Ref.World [("/work", Ref.Dir)] [] [] [] [Cancelled; Answered "us-east1"] [] [].

(** Somebody who picks a model, a language and the hosted backend, cancels
    the prompt for the project and types a region. *)
Definition picks_vertex_cancels_project : Ref.world :=
  Ref.World [("/work", Ref.Dir)] [] [] []
    [Answered "gemini-2.5-pro"; Answered "js"; Answered "vertex"; Cancelled;
     Answered "us-east1"] [] [].

(** A machine on which the place of the agent source is taken by a
    folder, so that the first write fails. *)
Definition source_is_a_folder : Ref.world :=
  Ref.World [("/work", Ref.Dir); ("/work/bot/agent.js", Ref.Dir)]
    [] [] [] [] [] [].

(** A machine whose package manager fails on the main install. *)
Definition broken_install : Ref.world :=
  Ref.World [("/work", Ref.Dir)] [] []
    ["npm install @google/adk @google/adk-devtools zod@3.25.76 dotenv"]
    [] [] [].

(** A machine whose package manager fails on the install of the type
    checker. *)
Definition broken_typescript_install : Ref.world :=
  Ref.World [("/work", Ref.Dir)] [] []
    ["npm install typescript --save-dev"] [] [] [].

(** A machine on which the variable of the project is set, to the empty
    string, and the cloud tool knows a project. *)
Definition empty_project_variable : Ref.world :=
  Ref.World [("/work", Ref.Dir)]
    [("GOOGLE_CLOUD_PROJECT", EmptyString)]
    [("gcloud config get-value project", "my-project" +:+ nl)]
    [] [] [] [].

(** A record with a project and no region. *)
Definition project_only : CliCreate.AgentCreationOptions :=
  CliCreate.Build_AgentCreationOptions "bot" None (Some "gemini-2.5-pro")
    None (Some "acme") None (Some "js").

(** A record with no region, and a project whose value goes on after a
    line feed. *)
Definition two_line_project : CliCreate.AgentCreationOptions :=
  CliCreate.Build_AgentCreationOptions "bot" None (Some "gemini-2.5-pro")
    None (Some ("p" +:+ nl +:+ "GOOGLE_GENAI_USE_VERTEXAI=1")) None
    (Some "js").

End MoreExamples.
(** * Reasoning about executions *)

Section Executions.
Context {W : Type} (h : handler W).

Lemma run_ret {A} (a : A) w : run h (Ret a) w = Execution (Returned a) [] w.
Proof. reflexivity. Qed.

Lemma run_call {X} (e : Eff X) w :
  run h (call e) w = Execution (Returned (fst (h X e w))) [Ev e (fst (h X e w))]
                       (snd (h X e w)).
Proof. reflexivity. Qed.

(** Sequencing: the second program starts where the first one returned; a
    throw or an exit of the first one ends both. *)
Lemma run_bind {A B} (p : Prog A) (f : A -> Prog B) w :
  run h (bind p f) w =
  match out (run h p w) with
  | Returned a =>
      Execution (out (run h (f a) (final (run h p w))))
        (trace (run h p w) ++ trace (run h (f a) (final (run h p w))))
        (final (run h (f a) (final (run h p w))))
  | Thrown e => Execution (Thrown e) (trace (run h p w)) (final (run h p w))
  | Exited c => Execution (Exited c) (trace (run h p w)) (final (run h p w))
  end.
Proof.
  revert w. induction p as [a | e | c | X e k IH]; intros w; simpl.
  - destruct (run h (f a) w); reflexivity.
  - reflexivity.
  - reflexivity.
  - rewrite IH. destruct (out (run h (k (fst (h X e w))) (snd (h X e w))));
      reflexivity.
Qed.

(** Sequencing is associative, as far as executions go. *)
Lemma run_bind_assoc {A B C} (p : Prog A) (f : A -> Prog B) (g : B -> Prog C) w :
  run h (bind (bind p f) g) w = run h (bind p (fun a => bind (f a) g)) w.
Proof.
  revert w. induction p as [a | e | c | X e k IH]; intros w; simpl;
    try reflexivity.
  rewrite IH. reflexivity.
Qed.

Lemma run_bind_ext {A B} (p : Prog A) (f g : A -> Prog B) w :
  (forall a w', run h (f a) w' = run h (g a) w') ->
  run h (bind p f) w = run h (bind p g) w.
Proof.
  intros Hfg. rewrite !run_bind.
  destruct (out (run h p w)); try reflexivity. rewrite Hfg. reflexivity.
Qed.

End Executions.

(** ** Traces *)

Lemma write_calls_app t1 t2 :
  write_calls (t1 ++ t2) = write_calls t1 ++ write_calls t2.
Proof. apply omap_app. Qed.

Lemma exec_calls_app t1 t2 :
  exec_calls (t1 ++ t2) = exec_calls t1 ++ exec_calls t2.
Proof. apply omap_app. Qed.

Lemma write_calls_none tr :
  Forall (fun ev => event_is is_write_call ev = false) tr -> write_calls tr = [].
Proof.
  induction 1 as [| ev tr Hev _ IH]; [reflexivity |].
  change (write_calls (ev :: tr)) with
    (match write_call ev with Some y => y :: write_calls tr | None => write_calls tr end).
  rewrite IH.
  destruct ev as [X e x |]; [destruct e; simpl in *; congruence | reflexivity].
Qed.

Lemma exec_calls_none tr :
  Forall (fun ev => event_is is_exec_call ev = false) tr -> exec_calls tr = [].
Proof.
  induction 1 as [| ev tr Hev _ IH]; [reflexivity |].
  change (exec_calls (ev :: tr)) with
    (match exec_call ev with Some y => y :: exec_calls tr | None => exec_calls tr end).
  rewrite IH.
  destruct ev as [X e x |]; [destruct e; simpl in *; congruence | reflexivity].
Qed.

(** ** Programs that never make a kind of call *)

Lemma avoids_bind {A B} kind (p : Prog A) (f : A -> Prog B) :
  avoids kind p -> (forall a, avoids kind (f a)) -> avoids kind (bind p f).
Proof.
  induction p as [a | e | c | X e k IH]; simpl; intros Hp Hf; auto.
  destruct Hp as [He Hk]. split; [exact He |]. intros x. apply IH; auto.
Qed.

Lemma avoids_forEach {A} kind (l : list A) (f : A -> Prog unit) :
  (forall a, avoids kind (f a)) -> avoids kind (forEach l f).
Proof.
  intros Hf. induction l as [| a l IH]; simpl; [exact I |].
  apply avoids_bind; auto.
Qed.

Lemma avoids_run {W A} kind (h : handler W) (p : Prog A) w :
  avoids kind p -> Forall (fun ev => event_is kind ev = false) (trace (run h p w)).
Proof.
  revert w. induction p as [a | e | c | X e k IH]; simpl; intros w Hp.
  - constructor.
  - constructor.
  - constructor; [reflexivity | constructor].
  - destruct Hp as [He Hk]. constructor; [exact He |]. apply IH, Hk.
Qed.

Lemma returns_bind {A B} (p : Prog A) (f : A -> Prog B) (P : A -> Prop)
    (Q : B -> Prop) :
  returns p P -> (forall a, P a -> returns (f a) Q) -> returns (bind p f) Q.
Proof.
  induction p as [a | e | c | X e k IH]; simpl; intros Hp Hf; auto.
Qed.

Lemma returns_mono {A} (p : Prog A) (P Q : A -> Prop) :
  returns p P -> (forall a, P a -> Q a) -> returns p Q.
Proof.
  induction p as [a | e | c | X e k IH]; simpl; intros Hp HPQ; auto.
Qed.

Lemma returns_run {W A} (h : handler W) (p : Prog A) (P : A -> Prop) w a :
  returns p P -> out (run h p w) = Returned a -> P a.
Proof.
  revert w. induction p as [a' | e | c | X e k IH]; simpl; intros w Hp Ho.
  - congruence.
  - discriminate.
  - discriminate.
  - eapply IH; [apply Hp | exact Ho].
Qed.

Lemma always_returns_bind {A B} (p : Prog A) (f : A -> Prog B) (P : A -> Prop) :
  always_returns p -> returns p P -> (forall a, P a -> always_returns (f a)) ->
  always_returns (bind p f).
Proof.
  induction p as [a | e | c | X e k IH]; simpl; intros Hp Hr Hf; auto.
Qed.

Lemma always_returns_run {W A} (h : handler W) (p : Prog A) w :
  always_returns p -> exists a, out (run h p w) = Returned a.
Proof.
  revert w. induction p as [a | e | c | X e k IH]; simpl; intros w Hp.
  - exists a. reflexivity.
  - contradiction.
  - contradiction.
  - apply IH, Hp.
Qed.

(** ** Lines of a text *)

Lemma lines_of_nonempty s : lines_of s <> [].
Proof.
  destruct s as [| c r]; simpl; [discriminate |].
  destruct (Ascii.eqb c "010"); [discriminate |].
  destruct (lines_of r); discriminate.
Qed.

(** Splitting a text at a line feed splits its lines. *)
Lemma lines_of_app_nl a b :
  lines_of (a +:+ nl +:+ b) = lines_of a ++ lines_of b.
Proof.
  induction a as [| c a IH]; simpl; [reflexivity |].
  destruct (Ascii.eqb c "010").
  - simpl. f_equal. exact IH.
  - rewrite IH.
    pose proof (lines_of_nonempty a) as Hne.
    destruct (lines_of a); [contradiction | reflexivity].
Qed.

Lemma lines_of_one_line s : one_line s = true -> lines_of s = [s].
Proof.
  induction s as [| c r IH]; simpl; [reflexivity |].
  destruct (Ascii.eqb c "010"); simpl; [discriminate |].
  intros Hr. rewrite (IH Hr). reflexivity.
Qed.

(** The lines of [l.join('\n')] are the lines of the members of [l]. *)
Lemma lines_of_join (l : list string) :
  l <> [] -> lines_of (js_join nl l) = concat (map lines_of l).
Proof.
  induction l as [| a l IH]; [contradiction |]. intros _.
  destruct l as [| b l].
  - simpl. rewrite app_nil_r. reflexivity.
  - change (js_join nl (a :: b :: l)) with (a +:+ nl +:+ js_join nl (b :: l)).
    rewrite lines_of_app_nl, IH by discriminate. reflexivity.
Qed.

(** When no member has a line feed, they are the lines. *)
Lemma lines_of_join_one_line (l : list string) :
  l <> [] -> forallb one_line l = true -> lines_of (js_join nl l) = l.
Proof.
  intros Hne Hl. rewrite lines_of_join by exact Hne. clear Hne.
  induction l as [| a l IH]; [reflexivity |].
  simpl in Hl. apply andb_prop in Hl as [Ha Hl].
  simpl. rewrite (lines_of_one_line a Ha), (IH Hl). reflexivity.
Qed.

Lemma one_line_app a b : one_line (a +:+ b) = one_line a && one_line b.
Proof.
  induction a as [| c a IH]; simpl; [reflexivity |].
  rewrite IH, andb_assoc. reflexivity.
Qed.

(** * The workflow, in two halves *)

Section Halves.
Import CliCreate.
Context {host : Host} {W : Type} (h : handler W).

Lemma run_createAgent (o : AgentCreationOptions) w :
  run h (createAgent o) w =
  run h (let* o' := untilGeneration o in
         fromGeneration (path_join dirname (agentName o)) o') w.
Proof.
  unfold createAgent, untilGeneration, fromGeneration.
  rewrite run_bind_assoc. apply run_bind_ext; intros _ w1.
  rewrite run_bind_assoc. apply run_bind_ext; intros o1 w2.
  rewrite run_bind_assoc. apply run_bind_ext; intros o2 w3.
  reflexivity.
Qed.

End Halves.
(** ** The environment file *)

Section EnvFileLemmas.
Import CliCreate.

Lemma hosted_in_env_lines o :
  In hosted_line (env_lines o) <->
  truthy (project o) = true /\ truthy (region o) = true.
Proof.
  unfold env_lines, hosted_line.
  destruct (truthy (apiKey o)), (truthy (project o)), (truthy (region o));
    simpl; split; intros H; repeat split; auto 10;
    repeat match goal with
           | H : _ \/ _ |- _ => destruct H
           | H : _ /\ _ |- _ => destruct H
           | H : False |- _ => contradiction
           | H : _ = _ |- _ => discriminate H
           end.
Qed.

Lemma key_in_env_lines o :
  existsb is_key_line (env_lines o) = truthy (apiKey o).
Proof.
  unfold env_lines.
  destruct (truthy (apiKey o)), (truthy (project o)), (truthy (region o));
    vm_compute; reflexivity.
Qed.

Lemma env_lines_one_line o :
  values_one_line o = true -> forallb one_line (env_lines o) = true.
Proof.
  unfold values_one_line, env_lines. intros Hv.
  apply andb_prop in Hv as [Hv Hr]. apply andb_prop in Hv as [Hk Hp].
  destruct (truthy (apiKey o)), (truthy (project o)), (truthy (region o));
    cbn -[String.append one_line]; rewrite ?one_line_app, ?Hk, ?Hp, ?Hr;
    reflexivity.
Qed.

(** Without line feeds in the values, the lines of the file are the members
    of [lines], but for the empty file, which has one empty line. *)
Lemma lines_of_generateEnvFile o :
  values_one_line o = true ->
  lines_of (generateEnvFile o) =
  match env_lines o with [] => [EmptyString] | _ => env_lines o end.
Proof.
  intros Hv. unfold generateEnvFile.
  destruct (env_lines o) as [| l ls] eqn:E; [reflexivity |].
  apply lines_of_join_one_line; [discriminate |].
  rewrite <- E. apply env_lines_one_line, Hv.
Qed.

End EnvFileLemmas.


(** ** The blocks of the workflow *)

(** Walks through a program whose calls are laid open and checks each. *)
Ltac walk :=
  repeat (simpl;
    match goal with
    | |- True => exact I
    | |- _ = _ => reflexivity
    | |- _ /\ _ => split
    | |- forall _, _ => intro
    | |- avoids _ (bind _ _) => apply avoids_bind
    | |- avoids _ (forEach _ _) => apply avoids_forEach
    | |- avoids _ (if ?b then _ else _) => destruct b
    | |- avoids _ (match ?x with _ => _ end) => destruct x
    end).

(** The same for [returns]; the binds are computed, not split. *)
Ltac walk_returns :=
  repeat (simpl;
    match goal with
    | |- True => exact I
    | |- _ = _ => reflexivity
    | |- _ /\ _ => split
    | |- forall _, _ => intro
    | |- returns ?p _ =>
        match p with
        | context [if ?b then _ else _] => destruct b eqn:?
        | context [match ?x with _ => _ end] => destruct x eqn:?
        end
    end).

Ltac open_blocks :=
  unfold CliCreate.createAgent, CliCreate.untilGeneration,
    CliCreate.fromGeneration, CliCreate.generateAgentFolder,
    CliCreate.chooseModel, CliCreate.chooseLanguage, CliCreate.chooseBackend,
    CliCreate.chooseVertex, CliCreate.chooseApiKey, CliCreate.getGcpProject,
    CliCreate.getGcpRegion, CliCreate.generateFiles,
    CliCreate.installDependencies, CliCreate.reportFiles,
    CliCreate.execPromise, FileUtils.isFolderExists, FileUtils.createFolder,
    FileUtils.removeFolder, FileUtils.listFiles, FileUtils.saveToFile, call.

Section Blocks.
Import FileUtils CliCreate.
Context {host : Host}.

Lemma untilGeneration_no_write o : avoids is_write_call (untilGeneration o).
Proof. open_blocks. walk. Qed.

Lemma untilGeneration_no_exec o : avoids is_exec_call (untilGeneration o).
Proof. open_blocks. walk. Qed.

Lemma generateFiles_no_exec o : avoids is_exec_call (generateFiles o).
Proof. open_blocks. walk. Qed.

Lemma installDependencies_no_write d o :
  avoids is_write_call (installDependencies d o).
Proof. open_blocks. walk. Qed.

Lemma reportFiles_no_write d o : avoids is_write_call (reportFiles d o).
Proof. open_blocks. walk. Qed.

Lemma reportFiles_no_exec d o : avoids is_exec_call (reportFiles d o).
Proof. open_blocks. walk. Qed.

(** *** What the blocks return *)

Lemma chooseModel_returns o :
  returns (chooseModel o)
    (fun o' => same_identity o o' /\ same_credentials o o' /\
               language o' = language o).
Proof. unfold same_identity, same_credentials. open_blocks. walk_returns. Qed.

Lemma chooseLanguage_returns o :
  returns (chooseLanguage o)
    (fun o' => same_identity o o' /\ same_credentials o o' /\
               model o' = model o).
Proof. unfold same_identity, same_credentials. open_blocks. walk_returns. Qed.

Lemma chooseBackend_returns o :
  returns (chooseBackend o)
    (fun o' => same_identity o o' /\ backend_choice o o' /\
               model o' = model o /\ language o' = language o).
Proof.
  unfold same_identity, backend_choice, same_credentials, chooseBackend.
  destruct (truthy (apiKey o)), (truthy (project o)); simpl;
    try (repeat split; reflexivity);
    open_blocks; walk_returns; auto.
Qed.

Lemma untilGeneration_returns o :
  returns (untilGeneration o)
    (fun o' => same_identity o o' /\ backend_choice o o').
Proof.
  unfold untilGeneration.
  eapply returns_bind with (P := fun _ => True).
  { open_blocks. walk_returns. }
  intros _ _.
  eapply returns_bind; [apply chooseModel_returns |].
  intros o1 ([Hn1 Hf1] & (Hk1 & Hp1 & Hr1) & Hl1).
  eapply returns_bind; [apply chooseLanguage_returns |].
  intros o2 ([Hn2 Hf2] & (Hk2 & Hp2 & Hr2) & Hm2).
  eapply returns_mono; [apply chooseBackend_returns |].
  intros o3 ([Hn3 Hf3] & Hb & _ & _).
  split; [split; congruence |].
  revert Hb. unfold backend_choice, same_credentials.
  rewrite Hk2, Hk1, Hp2, Hp1, Hr2, Hr1. exact (fun H => H).
Qed.

(** The record that reaches file generation has the three credentials
    exactly when the record given to [createAgent] had them. *)
Lemma backend_choice_all_credentials o o' :
  backend_choice o o' -> all_credentials o' = all_credentials o.
Proof.
  unfold backend_choice, all_credentials, same_credentials.
  destruct (truthy (apiKey o)) eqn:Hk, (truthy (project o)) eqn:Hp; simpl.
  - intros (-> & -> & ->). rewrite Hk, Hp. reflexivity.
  - intros (-> & -> & ->). rewrite Hk, Hp. reflexivity.
  - intros (-> & -> & ->). rewrite Hk, Hp. reflexivity.
  - intros [[-> _] | ->].
    + rewrite Hp, andb_false_r. reflexivity.
    + rewrite Hk. reflexivity.
Qed.

(** *** In force mode no block prompts *)

Lemma avoids_bind_returns {A B} kind (p : Prog A) (f : A -> Prog B)
    (P : A -> Prop) :
  avoids kind p -> returns p P -> (forall a, P a -> avoids kind (f a)) ->
  avoids kind (bind p f).
Proof.
  induction p as [a | e | c | X e k IH]; simpl; intros Hp Hr Hf; auto.
  destruct Hp as [He Hk]. split; [exact He |]. intros x. apply IH; auto.
Qed.

Ltac walk_force Hf :=
  repeat (simpl; rewrite ?Hf;
    match goal with
    | |- True => exact I
    | |- _ = _ => reflexivity
    | |- _ /\ _ => split
    | |- forall _, _ => intro
    | |- avoids _ (bind (forEach _ _) _) =>
        apply avoids_bind; [apply avoids_forEach |]
    | |- avoids _ ?p =>
        match p with
        | context [if ?b then _ else _] => destruct b
        | context [match ?x with _ => _ end] => destruct x
        end
    end).

Ltac walk_total Hf :=
  repeat (simpl; rewrite ?Hf;
    match goal with
    | |- True => exact I
    | |- forall _, _ => intro
    | |- always_returns ?p =>
        match p with
        | context [if ?b then _ else _] => destruct b
        | context [match ?x with _ => _ end] => destruct x
        end
    end).

(** In force mode the statements before [generateFiles] run to their end:
    nothing is asked, so nothing is cancelled or declined. *)
Lemma untilGeneration_force_returns o :
  forceYes o = Some true -> always_returns (untilGeneration o).
Proof.
  intros Hf. unfold untilGeneration.
  eapply always_returns_bind with (P := fun _ => True).
  { open_blocks. walk_total Hf. }
  { open_blocks. rewrite Hf. walk_returns. }
  intros _ _.
  eapply always_returns_bind;
    [open_blocks; walk_total Hf | apply chooseModel_returns |].
  intros o1 ([_ Hf1] & _). rewrite <- Hf1 in Hf.
  eapply always_returns_bind;
    [open_blocks; walk_total Hf | apply chooseLanguage_returns |].
  intros o2 ([_ Hf2] & _). rewrite <- Hf2 in Hf.
  open_blocks. walk_total Hf.
Qed.

Lemma generateAgentFolder_silent d f :
  f = Some true -> avoids is_prompt_call (generateAgentFolder d f).
Proof. intros ->. open_blocks. walk_force I. Qed.

Lemma chooseModel_silent o :
  forceYes o = Some true -> avoids is_prompt_call (chooseModel o).
Proof. intros Hf. open_blocks. walk_force Hf. Qed.

Lemma chooseLanguage_silent o :
  forceYes o = Some true -> avoids is_prompt_call (chooseLanguage o).
Proof. intros Hf. open_blocks. walk_force Hf. Qed.

Lemma chooseBackend_silent o :
  forceYes o = Some true -> avoids is_prompt_call (chooseBackend o).
Proof. intros Hf. open_blocks. walk_force Hf. Qed.

Lemma fromGeneration_silent d o : avoids is_prompt_call (fromGeneration d o).
Proof. open_blocks. walk_force I. Qed.

Lemma createAgent_silent o :
  forceYes o = Some true -> avoids is_prompt_call (createAgent o).
Proof.
  intros Hf. unfold createAgent.
  apply avoids_bind; [apply generateAgentFolder_silent, Hf |]. intros _.
  eapply avoids_bind_returns;
    [apply chooseModel_silent, Hf | apply chooseModel_returns |].
  intros o1 ([_ Hf1] & _). rewrite <- Hf1 in Hf.
  eapply avoids_bind_returns;
    [apply chooseLanguage_silent, Hf | apply chooseLanguage_returns |].
  intros o2 ([_ Hf2] & _). rewrite <- Hf2 in Hf.
  eapply avoids_bind_returns;
    [apply chooseBackend_silent, Hf | apply chooseBackend_returns |].
  intros o3 _. apply fromGeneration_silent.
Qed.

End Blocks.
(** ** The two halves and what they call *)

Section Calls.
Import FileUtils CliCreate.
Context {host : Host} {W : Type} (h : handler W).

(** Takes the answers of the environment apart, one call after the other. *)
Ltac answers :=
  repeat (simpl;
    match goal with
    | |- context [match fst (h ?X ?e ?w) with _ => _ end] =>
        destruct (fst (h X e w)) as [[] | ?]
    end); simpl.

(** [generateFiles] asks for the candidate files in their order and stops
    at the first write that fails. *)
Lemma generateFiles_spec o w :
  (exists rest,
     candidate_files o = write_calls (trace (run h (generateFiles o) w)) ++ rest) /\
  (existsb failed_write (trace (run h (generateFiles o) w)) = false ->
   write_calls (trace (run h (generateFiles o) w)) = candidate_files o /\
   out (run h (generateFiles o) w) = Returned tt) /\
  (existsb failed_write (trace (run h (generateFiles o) w)) = true ->
   exists e, out (run h (generateFiles o) w) = Thrown e).
Proof.
  unfold generateFiles, candidate_files, saveToFile, call.
  destruct (strict_eq (language o) "ts"); answers;
    repeat split; try discriminate; eauto.
Qed.

Lemma installDependencies_spec d o w :
  exec_calls (trace (run h (installDependencies d o) w)) =
  match strict_eq (language o) "ts",
        fst (h _ (Exec typescript_install d) w) with
  | true, Ok _ => [(typescript_install, d); (main_install, d)]
  | true, Err _ => [(typescript_install, d)]
  | false, _ => [(main_install, d)]
  end.
Proof.
  unfold installDependencies, execPromise, call, typescript_install,
    main_install.
  destruct (strict_eq (language o) "ts"); [| answers; reflexivity].
  simpl. destruct (fst (h _ (Exec _ d) w)) as [[] | e]; [| reflexivity].
  answers; reflexivity.
Qed.

(** The writes of [createAgent] are those of [generateFiles], on the record
    that reaches it. *)
Lemma createAgent_write_calls o w :
  write_calls (trace (run h (createAgent o) w)) =
  match out (run h (untilGeneration o) w) with
  | Returned o' =>
      write_calls (trace (run h (generateFiles o')
                            (final (run h (untilGeneration o) w))))
  | _ => []
  end.
Proof.
  rewrite run_createAgent, run_bind.
  pose proof (write_calls_none _
    (avoids_run _ h _ w (untilGeneration_no_write o))) as Hu.
  destruct (out (run h (untilGeneration o) w)) as [o' | e | c]; cbn [trace out final];
    [| exact Hu | exact Hu].
  rewrite write_calls_app, Hu. cbn [app].
  unfold fromGeneration. rewrite run_bind.
  set (w1 := final (run h (untilGeneration o) w)).
  destruct (out (run h (generateFiles o') w1)) as [[] | e | c]; cbn [trace out final];
    try reflexivity.
  rewrite write_calls_app, (write_calls_none (trace (run h (bind _ _) _))).
  - apply app_nil_r.
  - apply avoids_run, avoids_bind;
      [apply installDependencies_no_write | intros _; apply reportFiles_no_write].
Qed.

(** The second file that [createAgent] asks to write is the environment
    file of the record that reached file generation. *)
Lemma createAgent_second_write o w pd :
  write_calls (trace (run h (createAgent o) w)) !! 1%nat = Some pd ->
  exists o',
    out (run h (untilGeneration o) w) = Returned o' /\
    pd = (path_join (path_join dirname (agentName o)) ".env",
          generateEnvFile o').
Proof.
  rewrite createAgent_write_calls.
  destruct (out (run h (untilGeneration o) w)) as [o' | e | c] eqn:Ho;
    [| discriminate | discriminate].
  intros Hpd. exists o'. split; [reflexivity |].
  destruct (returns_run h _ _ w o' (untilGeneration_returns o) Ho)
    as [[Hn _] _].
  destruct (generateFiles_spec o'
              (final (run h (untilGeneration o) w))) as [[rest Hrest] _].
  assert (Hcand : candidate_files o' !! 1%nat = Some pd).
  { rewrite Hrest. apply lookup_app_l_Some, Hpd. }
  unfold candidate_files in Hcand. simpl in Hcand.
  injection Hcand as <-. rewrite Hn. reflexivity.
Qed.

(** When no write of [createAgent] fails, none of [generateFiles] did. *)
Lemma createAgent_failed_write o w o' :
  out (run h (untilGeneration o) w) = Returned o' ->
  existsb failed_write (trace (run h (createAgent o) w)) = false ->
  existsb failed_write
    (trace (run h (generateFiles o') (final (run h (untilGeneration o) w)))) =
  false.
Proof.
  intros Ho. rewrite run_createAgent, run_bind, Ho. cbn [trace out final].
  rewrite existsb_app, orb_false_iff. intros [_ Hfrom]. revert Hfrom.
  unfold fromGeneration. rewrite run_bind.
  destruct (out (run h (generateFiles o') _)) as [[] | e | c];
    cbn [trace out final]; try exact (fun H => H).
  rewrite existsb_app, orb_false_iff. intros [Hgen _]. exact Hgen.
Qed.

(** [createAgent] is [untilInstall], then the installer, then the summary. *)
Lemma run_createAgent_install o w :
  run h (createAgent o) w =
  run h (let* o' := untilInstall o in
         installDependencies (path_join dirname (agentName o)) o' >>
         reportFiles (path_join dirname (agentName o)) o') w.
Proof.
  rewrite run_createAgent. unfold untilInstall, fromGeneration.
  rewrite run_bind_assoc. apply run_bind_ext; intros o' w1.
  rewrite run_bind_assoc. apply run_bind_ext; intros _ w2.
  reflexivity.
Qed.

Lemma untilInstall_no_exec o : avoids is_exec_call (untilInstall o).
Proof.
  unfold untilInstall. apply avoids_bind; [apply untilGeneration_no_exec |].
  intros o'. apply avoids_bind; [apply generateFiles_no_exec |].
  intros _. exact I.
Qed.

(** The installs of [createAgent] are those of the installer, when the run
    gets there. *)
Lemma createAgent_exec_calls o w o' :
  out (run h (untilInstall o) w) = Returned o' ->
  exec_calls (trace (run h (createAgent o) w)) =
  exec_calls (trace (run h (installDependencies
                              (path_join dirname (agentName o)) o')
                        (final (run h (untilInstall o) w)))).
Proof.
  intros Ho. rewrite run_createAgent_install, run_bind, Ho. cbn [trace out final].
  rewrite exec_calls_app,
    (exec_calls_none _ (avoids_run _ h _ w (untilInstall_no_exec o))).
  cbn [app]. rewrite run_bind.
  set (d := path_join dirname (agentName o)).
  set (w1 := final (run h (untilInstall o) w)).
  destruct (out (run h (installDependencies d o') w1)) as [[] | e | c]; cbn [trace out final];
    try reflexivity.
  rewrite exec_calls_app, (exec_calls_none (trace (run h (reportFiles _ _) _))).
  - apply app_nil_r.
  - apply avoids_run, reportFiles_no_exec.
Qed.

(** A failed install of the type checker is the error of
    [installDependencies]. *)
Lemma installDependencies_typescript_thrown d o w e :
  strict_eq (language o) "ts" = true ->
  fst (h _ (Exec typescript_install d) w) = Err e ->
  out (run h (installDependencies d o) w) = Thrown e.
Proof.
  unfold installDependencies, execPromise, call, typescript_install.
  intros Hts He. rewrite Hts. simpl. rewrite He. reflexivity.
Qed.

(** An error of [installDependencies] is the error of [createAgent]. *)
Lemma createAgent_install_thrown o w o' e :
  out (run h (untilInstall o) w) = Returned o' ->
  out (run h (installDependencies (path_join dirname (agentName o)) o')
         (final (run h (untilInstall o) w))) = Thrown e ->
  out (run h (createAgent o) w) = Thrown e.
Proof.
  intros Ho Hi. rewrite run_createAgent_install, run_bind, Ho.
  cbn [trace out final]. rewrite run_bind, Hi. reflexivity.
Qed.

End Calls.

(** A member of [l] without line feed is a line of [l.join('\n')]. *)
Lemma In_lines_of_join (l : list string) (x : string) :
  In x l -> one_line x = true -> In x (lines_of (js_join nl l)).
Proof.
  intros Hx H1. rewrite lines_of_join by (destruct l; [contradiction | discriminate]).
  apply in_concat. exists [x]. split; [| left; reflexivity].
  rewrite <- (lines_of_one_line x H1). apply in_map, Hx.
Qed.

(** * The claims *)

Section Claims.
Import FileUtils CliCreate.

(** ** The environment file *)

(** C10, as stated.  The record [two_line_project] has no region, and a
    project whose value goes on, after a line feed, with the text of the
    flag line.  Its region is empty, and yet [GOOGLE_GENAI_USE_VERTEXAI=1]
    is a line of the content that [generateEnvFile] returns for it. *)
Lemma hosted_line_without_region :
  truthy (region MoreExamples.two_line_project) = false /\
  lines_of (generateEnvFile MoreExamples.two_line_project) =
    ["GOOGLE_CLOUD_PROJECT=p"; "GOOGLE_GENAI_USE_VERTEXAI=1"] /\
  In hosted_line (lines_of (generateEnvFile MoreExamples.two_line_project)).
Proof.
  split; [reflexivity |]. split; [vm_compute; reflexivity |].
  vm_compute. right. left. reflexivity.
Qed.

(** C10, amended.  When the project and the region are both non-empty,
    [GOOGLE_GENAI_USE_VERTEXAI=1] is a line of the content that
    [generateEnvFile] returns.  When no value of the record has a line feed
    in it, it is a line of that content if and only if both are non-empty: a
    record with a project and no region then has the project line in its
    content and not the flag line, and a record with a region and no project
    has the location line and not the flag line. *)
Theorem hosted_line_iff (o : AgentCreationOptions) :
  (truthy (project o) = true /\ truthy (region o) = true ->
   In hosted_line (lines_of (generateEnvFile o))) /\
  (values_one_line o = true ->
   (In hosted_line (lines_of (generateEnvFile o)) <->
    truthy (project o) = true /\ truthy (region o) = true) /\
   (truthy (project o) = true -> truthy (region o) = false ->
    In ("GOOGLE_CLOUD_PROJECT=" +:+ to_str (project o))
       (lines_of (generateEnvFile o)) /\
    ~ In hosted_line (lines_of (generateEnvFile o))) /\
   (truthy (region o) = true -> truthy (project o) = false ->
    In ("GOOGLE_CLOUD_LOCATION=" +:+ to_str (region o))
       (lines_of (generateEnvFile o)) /\
    ~ In hosted_line (lines_of (generateEnvFile o)))).
Proof.
  pose proof (hosted_in_env_lines o) as Hiff.
  split.
  { intros Hpr. apply In_lines_of_join; [apply Hiff, Hpr | reflexivity]. }
  intros Hv.
  assert (Hto : forall x, In x (env_lines o) ->
                          In x (lines_of (generateEnvFile o))).
  { intros x Hx. rewrite (lines_of_generateEnvFile o Hv).
    destruct (env_lines o); [contradiction | exact Hx]. }
  assert (Hfrom : In hosted_line (lines_of (generateEnvFile o)) ->
                  In hosted_line (env_lines o)).
  { intros Hin. rewrite (lines_of_generateEnvFile o Hv) in Hin.
    destruct (env_lines o) as [| l ls]; [| exact Hin].
    destruct Hin as [Hin | []]. discriminate Hin. }
  split; [| split].
  - split; [intros Hin; apply Hiff, Hfrom, Hin | intros Hpr; apply Hto, Hiff, Hpr].
  - intros Hp Hr. split.
    + apply Hto. unfold env_lines. rewrite Hp, Hr.
      destruct (truthy (apiKey o)); simpl; auto.
    + intros Hin. apply Hfrom, Hiff in Hin as [_ Hr']. congruence.
  - intros Hr Hp. split.
    + apply Hto. unfold env_lines. rewrite Hp, Hr.
      destruct (truthy (apiKey o)); simpl; auto.
    + intros Hin. apply Hfrom, Hiff in Hin as [Hp' _]. congruence.
Qed.

Lemma hosted_line_iff_witness :
  values_one_line MoreExamples.project_only = true /\
  In "GOOGLE_CLOUD_PROJECT=acme"
     (lines_of (generateEnvFile MoreExamples.project_only)) /\
  ~ In hosted_line (lines_of (generateEnvFile MoreExamples.project_only)).
Proof.
  split; [reflexivity |].
  exact (proj1 (proj2 (proj2 (hosted_line_iff MoreExamples.project_only) eq_refl))
           eq_refl eq_refl).
Defined.

(** C1, as stated.  The record [overdetermined] has a key, a project
    and a region.  On the reference machine [createAgent] runs to its end
    on it and writes an environment file in which both backends show. *)
Lemma env_file_exclusivity_fails :
  out (run Ref.handle (createAgent (host := Ref.posix) Examples.overdetermined) Ref.empty) =
    Returned tt /\
  write_calls (trace (run Ref.handle (createAgent (host := Ref.posix) Examples.overdetermined)
                        Ref.empty)) !! 1%nat =
    Some ("/work/bot/.env", generateEnvFile Examples.overdetermined) /\
  lines_of (generateEnvFile Examples.overdetermined) =
    ["GOOGLE_API_KEY=k"; "GOOGLE_GENAI_USE_VERTEXAI=0";
     "GOOGLE_CLOUD_PROJECT=p"; "GOOGLE_CLOUD_LOCATION=r";
     "GOOGLE_GENAI_USE_VERTEXAI=1"] /\
  both_backends (generateEnvFile Examples.overdetermined).
Proof.
  split; [vm_compute; reflexivity |].
  split; [vm_compute; reflexivity |].
  split; [vm_compute; reflexivity |].
  split; [vm_compute; reflexivity |].
  vm_compute. auto 10.
Qed.

(** C1, amended.  The lines that [generateEnvFile] emits have both a key
    line and the line that turns the hosted backend on exactly when the key,
    the project and the region are all non-empty, and so has the content
    when no value has a line feed in it.  The record that reaches file
    generation has the three of them exactly when the record given to
    [createAgent] had: the decision points never fill in both backends. *)
Theorem env_file_both_backends_iff {host : Host} {W : Type} (h : handler W)
    (w : W) (o : AgentCreationOptions) :
  (existsb is_key_line (env_lines o) = true /\ In hosted_line (env_lines o) <->
   all_credentials o = true) /\
  (values_one_line o = true ->
   (both_backends (generateEnvFile o) <-> all_credentials o = true)) /\
  (forall o', out (run h (untilGeneration o) w) = Returned o' ->
              all_credentials o' = all_credentials o) /\
  (forall pd,
     write_calls (trace (run h (createAgent o) w)) !! 1%nat = Some pd ->
     exists o',
       pd = (path_join (path_join dirname (agentName o)) ".env",
             generateEnvFile o') /\
       all_credentials o' = all_credentials o).
Proof.
  assert (Hrec : existsb is_key_line (env_lines o) = true /\
                 In hosted_line (env_lines o) <-> all_credentials o = true).
  { rewrite key_in_env_lines, hosted_in_env_lines. unfold all_credentials.
    rewrite !andb_true_iff. tauto. }
  split; [exact Hrec |]. split.
  - intros Hv. unfold both_backends.
    rewrite (lines_of_generateEnvFile o Hv).
    destruct (env_lines o) as [| l ls] eqn:E; [| exact Hrec].
    rewrite <- Hrec. simpl. split; [intros [H _] | intros [H _]]; discriminate H.
  - assert (Hreach : forall o', out (run h (untilGeneration o) w) = Returned o' ->
                                 all_credentials o' = all_credentials o).
    { intros o' Ho'. apply backend_choice_all_credentials.
      exact (proj2 (returns_run h _ _ w o' (untilGeneration_returns o) Ho')). }
    split; [exact Hreach |].
    intros pd Hpd.
    destruct (createAgent_second_write h o w pd Hpd) as (o' & Ho' & ->).
    exists o'. split; [reflexivity | exact (Hreach o' Ho')].
Qed.

(** C3.  With the project [acme], the region [us-central1], no key and
    the force flag, the environment file is the three lines of the project,
    the region and the hosted-mode flag, in that order, and no line gives a
    key.  Whatever the environment, the second file that [createAgent] asks
    to write is the environment file with that content, and it does ask for
    it unless a write fails. *)
Theorem scenario_D_env_file {host : Host} {W : Type} (h : handler W) (w : W)
    (o : AgentCreationOptions) :
  project o = Some "acme" ->
  region o = Some "us-central1" ->
  truthy (apiKey o) = false ->
  forceYes o = Some true ->
  generateEnvFile o =
    "GOOGLE_CLOUD_PROJECT=acme" +:+ nl +:+
    "GOOGLE_CLOUD_LOCATION=us-central1" +:+ nl +:+
    "GOOGLE_GENAI_USE_VERTEXAI=1" /\
  lines_of (generateEnvFile o) =
    ["GOOGLE_CLOUD_PROJECT=acme"; "GOOGLE_CLOUD_LOCATION=us-central1";
     "GOOGLE_GENAI_USE_VERTEXAI=1"] /\
  existsb is_key_line (lines_of (generateEnvFile o)) = false /\
  (forall pd,
     write_calls (trace (run h (createAgent o) w)) !! 1%nat = Some pd ->
     pd = (path_join (path_join dirname (agentName o)) ".env",
           generateEnvFile o)) /\
  (existsb failed_write (trace (run h (createAgent o) w)) = false ->
   write_calls (trace (run h (createAgent o) w)) !! 1%nat =
   Some (path_join (path_join dirname (agentName o)) ".env",
         generateEnvFile o)).
Proof.
  intros Hp Hr Hk Hf.
  assert (Hgen : forall o', same_credentials o o' ->
                            generateEnvFile o' = generateEnvFile o).
  { intros o' (Hk' & Hp' & Hr'). unfold generateEnvFile, env_lines.
    rewrite Hk', Hp', Hr'. reflexivity. }
  assert (Hc : generateEnvFile o =
               "GOOGLE_CLOUD_PROJECT=acme" +:+ nl +:+
               "GOOGLE_CLOUD_LOCATION=us-central1" +:+ nl +:+
               "GOOGLE_GENAI_USE_VERTEXAI=1").
  { unfold generateEnvFile, env_lines. rewrite Hk, Hp, Hr. reflexivity. }
  split; [exact Hc |]. rewrite Hc.
  split; [reflexivity |]. split; [reflexivity |].
  assert (Hsecond : forall pd,
            write_calls (trace (run h (createAgent o) w)) !! 1%nat = Some pd ->
            pd = (path_join (path_join dirname (agentName o)) ".env",
                  "GOOGLE_CLOUD_PROJECT=acme" +:+ nl +:+
                  "GOOGLE_CLOUD_LOCATION=us-central1" +:+ nl +:+
                  "GOOGLE_GENAI_USE_VERTEXAI=1")).
  { intros pd Hpd.
    destruct (createAgent_second_write h o w pd Hpd) as (o' & Ho & ->).
    destruct (returns_run h _ _ w o' (untilGeneration_returns o) Ho) as [_ Hb].
    assert (Hs : same_credentials o o').
    { revert Hb. unfold backend_choice. rewrite Hk, Hp. exact (fun H => H). }
    rewrite (Hgen o' Hs), Hc. reflexivity. }
  split; [exact Hsecond |].
  intros Hnf.
  destruct (always_returns_run h _ w (untilGeneration_force_returns o Hf))
    as [o' Ho].
  pose proof (createAgent_failed_write h o w o' Ho Hnf) as Hgf.
  destruct (generateFiles_spec h o' (final (run h (untilGeneration o) w)))
    as (_ & Hall & _).
  destruct (Hall Hgf) as [Hw _].
  destruct (write_calls (trace (run h (createAgent o) w)) !! 1%nat)
    as [pd |] eqn:E.
  - rewrite (Hsecond pd eq_refl). reflexivity.
  - rewrite createAgent_write_calls, Ho, Hw in E.
    unfold candidate_files in E. discriminate E.
Qed.

Lemma scenario_D_env_file_witness :
  generateEnvFile Examples.acme =
    "GOOGLE_CLOUD_PROJECT=acme" +:+ nl +:+
    "GOOGLE_CLOUD_LOCATION=us-central1" +:+ nl +:+
    "GOOGLE_GENAI_USE_VERTEXAI=1" /\
  lines_of (generateEnvFile Examples.acme) =
    ["GOOGLE_CLOUD_PROJECT=acme"; "GOOGLE_CLOUD_LOCATION=us-central1";
     "GOOGLE_GENAI_USE_VERTEXAI=1"] /\
  existsb is_key_line (lines_of (generateEnvFile Examples.acme)) = false /\
  (forall pd,
     write_calls (trace (run Ref.handle (createAgent (host := Ref.posix) Examples.acme)
                           Ref.empty)) !! 1%nat = Some pd ->
     pd = ("/work/acme_bot/.env", generateEnvFile Examples.acme)) /\
  (existsb failed_write
     (trace (run Ref.handle (createAgent (host := Ref.posix) Examples.acme)
               Ref.empty)) = false ->
   write_calls (trace (run Ref.handle (createAgent (host := Ref.posix) Examples.acme)
                         Ref.empty)) !! 1%nat =
   Some ("/work/acme_bot/.env", generateEnvFile Examples.acme)).
Proof.
  exact (scenario_D_env_file (host := Ref.posix) Ref.handle Ref.empty Examples.acme
           eq_refl eq_refl eq_refl eq_refl).
Defined.

(** On the reference machine the environment file of scenario D is indeed
    written, and it is on disk at the end. *)
Example scenario_D_on_disk :
  write_calls (trace (run Ref.handle (createAgent (host := Ref.posix) Examples.acme) Ref.empty))
    !! 1%nat =
    Some ("/work/acme_bot/.env", generateEnvFile Examples.acme) /\
  Ref.lookup "/work/acme_bot/.env"
    (Ref.fs (final (run Ref.handle (createAgent (host := Ref.posix) Examples.acme) Ref.empty))) =
    Some (Ref.File (generateEnvFile Examples.acme)).
Proof. split; vm_compute; reflexivity. Qed.

(** ** Force mode *)

(** C4.  With the force flag set, no execution of [createAgent] calls
    [select] or [text]: not for the overwrite of the folder, not for the
    model, the language, the backend, the project, the region or the key. *)
Theorem force_mode_never_prompts {host : Host} {W : Type} (h : handler W)
    (w : W) (o : AgentCreationOptions) :
  forceYes o = Some true ->
  Forall (fun ev => is_prompt ev = false) (trace (run h (createAgent o) w)).
Proof.
  intros Hf. apply (avoids_run is_prompt_call), createAgent_silent, Hf.
Qed.

Lemma force_mode_never_prompts_witness :
  Forall (fun ev => is_prompt ev = false)
    (trace (run Ref.handle (createAgent (host := Ref.posix) Examples.weather_bot)
              Examples.occupied)).
Proof.
  exact (force_mode_never_prompts (host := Ref.posix) Ref.handle
           Examples.occupied Examples.weather_bot eq_refl).
Defined.

(** ** The record of the router *)

(** C5.  Whatever the command line, the record that the [create] command
    hands to [createAgent] has no force flag; so when the folder is there
    the workflow asks before it overwrites, and no command line avoids the
    question. *)
Theorem create_passes_no_force_flag {host : Host} {W : Type} (h : handler W)
    (w : W) (name : string) (options : gmap string string) :
  forceYes (Cli.create_options name options) = None /\
  (fst (h _ (FsAccess (path_join dirname name)) w) = Ok tt ->
   exists a rest,
     trace (run h (Cli.create_action name options) w) =
     Ev (FsAccess (path_join dirname name)) (Ok tt) ::
     Ev (SelectBool
           ("Folder " +:+ path_join dirname name +:+
            " already exists. Would you like to overwrite existing folder?")
           [("Yes", true); ("No", false)]) a :: rest).
Proof.
  split; [reflexivity |]. intros Hacc.
  unfold Cli.create_action, createAgent. rewrite run_bind.
  unfold generateAgentFolder, isFolderExists, call. simpl.
  rewrite Hacc. simpl.
  match goal with
  | |- context [out ?x] => destruct (out x); simpl; eauto
  end.
Qed.

Lemma create_passes_no_force_flag_witness :
  forceYes (Cli.create_options "weather_bot" ∅) = None /\
  exists a rest,
    trace (run Ref.handle
             (Cli.create_action (host := Ref.posix) "weather_bot" ∅)
             Examples.occupied) =
    Ev (FsAccess "/work/weather_bot") (Ok tt) ::
    Ev (SelectBool
          "Folder /work/weather_bot already exists. Would you like to overwrite existing folder?"
          [("Yes", true); ("No", false)]) a :: rest.
Proof.
  destruct (create_passes_no_force_flag (host := Ref.posix) Ref.handle
              Examples.occupied "weather_bot" ∅) as [Hflag Hask].
  split; [exact Hflag |]. exact (Hask eq_refl).
Defined.

(** ** The files *)

(** C6.  Whatever the environment, [generateFiles] asks for the candidate
    files in their order (agent source, environment file, manifest and, for
    the typed variant, the configuration of the type checker), each at most
    once and none other; when no write fails it asks for all of them and
    returns, that is three files, and a fourth one exactly when the language
    is [ts]; when a write fails it throws. *)
Theorem generateFiles_writes_candidates {host : Host} {W : Type}
    (h : handler W) (w : W) (o : AgentCreationOptions) :
  (exists rest,
     candidate_files o = write_calls (trace (run h (generateFiles o) w)) ++ rest) /\
  (existsb failed_write (trace (run h (generateFiles o) w)) = false ->
   write_calls (trace (run h (generateFiles o) w)) = candidate_files o /\
   out (run h (generateFiles o) w) = Returned tt /\
   length (write_calls (trace (run h (generateFiles o) w))) =
     (if strict_eq (language o) "ts" then 4 else 3)%nat) /\
  (existsb failed_write (trace (run h (generateFiles o) w)) = true ->
   exists e, out (run h (generateFiles o) w) = Thrown e).
Proof.
  destruct (generateFiles_spec h o w) as (Hpre & Hok & Hfail).
  split; [exact Hpre |]. split; [| exact Hfail].
  intros Hnf. destruct (Hok Hnf) as [Hw Ho].
  split; [exact Hw |]. split; [exact Ho |].
  rewrite Hw. unfold candidate_files.
  destruct (strict_eq (language o) "ts"); reflexivity.
Qed.

(** On the reference machine, in scenario A of the specification, the four
    files are written and are on disk at the end. *)
Example scenario_A_files :
  existsb failed_write
    (trace (run Ref.handle
              (generateFiles (host := Ref.posix) Examples.weather_bot_resolved)
              (Ref.with_fs Ref.empty
                 [("/work", Ref.Dir); ("/work/weather_bot", Ref.Dir)]))) = false /\
  map fst (write_calls
    (trace (run Ref.handle
              (generateFiles (host := Ref.posix) Examples.weather_bot_resolved)
              (Ref.with_fs Ref.empty
                 [("/work", Ref.Dir); ("/work/weather_bot", Ref.Dir)])))) =
    ["/work/weather_bot/agent.ts"; "/work/weather_bot/.env";
     "/work/weather_bot/package.json"; "/work/weather_bot/tsconfig.json"] /\
  map fst (Ref.fs (final (run Ref.handle
                            (createAgent (host := Ref.posix) Examples.weather_bot)
                            Ref.empty))) =
    ["/work"; "/work/weather_bot"; "/work/weather_bot/agent.ts";
     "/work/weather_bot/.env"; "/work/weather_bot/package.json";
     "/work/weather_bot/tsconfig.json"].
Proof. repeat split; vm_compute; reflexivity. Qed.

(** ** The installs *)

(** C7, as stated.  On a machine whose package manager fails on the
    install of the type checker, the run of [createAgent] on [weather_bot]
    (force mode, hence [ts]) reaches dependency installation, with the
    record [weather_bot_resolved]; its only call of the package manager is
    the install of the type checker: the install of the run-time
    dependencies is not invoked, and the run ends with the error of the
    failed install. *)
Lemma main_install_is_skipped :
  out (run Ref.handle (untilInstall (host := Ref.posix) Examples.weather_bot)
         MoreExamples.broken_typescript_install) =
    Returned Examples.weather_bot_resolved /\
  exec_calls (trace (run Ref.handle
                       (createAgent (host := Ref.posix) Examples.weather_bot)
                       MoreExamples.broken_typescript_install)) =
    [("npm install typescript --save-dev", "/work/weather_bot")] /\
  ~ In (main_install, "/work/weather_bot")
       (exec_calls (trace (run Ref.handle
                             (createAgent (host := Ref.posix) Examples.weather_bot)
                             MoreExamples.broken_typescript_install))) /\
  out (run Ref.handle (createAgent (host := Ref.posix) Examples.weather_bot)
         MoreExamples.broken_typescript_install) =
    Thrown "Command failed".
Proof.
  split; [vm_compute; reflexivity |].
  split; [vm_compute; reflexivity |].
  split; [| vm_compute; reflexivity].
  vm_compute. intros [H | []]. discriminate H.
Qed.

(** C7, amended.  In a run that reaches dependency installation, with the
    record [o'] that reached it: the calls of the package manager that
    [createAgent] makes all have the folder of the agent as working
    directory; for a language other than [ts] there is one, the install of
    the run-time dependencies; for [ts] the install of the type checker as a
    development dependency comes first and the install of the run-time
    dependencies follows it, once, unless the install of the type checker
    fails: then it is the only call, the install of the run-time
    dependencies is not invoked, and [createAgent] ends with the error of
    the failed install. *)
Theorem install_calls_of_createAgent {host : Host} {W : Type} (h : handler W)
    (w : W) (o o' : AgentCreationOptions) :
  out (run h (untilInstall o) w) = Returned o' ->
  exec_calls (trace (run h (createAgent o) w)) =
  match strict_eq (language o') "ts",
        fst (h _ (Exec typescript_install (path_join dirname (agentName o)))
               (final (run h (untilInstall o) w))) with
  | true, Ok _ =>
      [(typescript_install, path_join dirname (agentName o));
       (main_install, path_join dirname (agentName o))]
  | true, Err _ => [(typescript_install, path_join dirname (agentName o))]
  | false, _ => [(main_install, path_join dirname (agentName o))]
  end /\
  (forall e,
     strict_eq (language o') "ts" = true ->
     fst (h _ (Exec typescript_install (path_join dirname (agentName o)))
            (final (run h (untilInstall o) w))) = Err e ->
     out (run h (createAgent o) w) = Thrown e).
Proof.
  intros Ho. split.
  - rewrite (createAgent_exec_calls h o w o' Ho).
    apply installDependencies_spec.
  - intros e Hts He. apply (createAgent_install_thrown h o w o' e Ho).
    apply installDependencies_typescript_thrown; assumption.
Qed.

Lemma install_calls_of_createAgent_witness :
  exec_calls (trace (run Ref.handle
                       (createAgent (host := Ref.posix) Examples.weather_bot)
                       Ref.empty)) =
  [("npm install typescript --save-dev", "/work/weather_bot");
   ("npm install @google/adk @google/adk-devtools zod@3.25.76 dotenv",
    "/work/weather_bot")].
Proof.
  exact (proj1 (install_calls_of_createAgent (host := Ref.posix) Ref.handle
                  Ref.empty Examples.weather_bot Examples.weather_bot_resolved
                  eq_refl)).
Defined.

(** ** A folder that is there already *)

(** C8.  The folder is there, the force flag is not set, and the user
    answers no to the question: [createAgent] prints that the directory
    exists on the error stream and ends the process with status 0.  The run
    consists of the check, the question, the message and the exit; nothing
    is created, removed or written and no process is started, and the
    environment is left as those three calls left it. *)
Theorem declined_overwrite_exits {host : Host} {W : Type} (h : handler W)
    (w : W) (o : AgentCreationOptions) :
  let agentDir := path_join dirname (agentName o) in
  let question :=
    SelectBool ("Folder " +:+ agentDir +:+
                " already exists. Would you like to overwrite existing folder?")
      [("Yes", true); ("No", false)] in
  let diagnostic :=
    ConsoleError ("Agent directory " +:+ agentDir +:+ " already exists.") None in
  let w1 := snd (h _ (FsAccess agentDir) w) in
  let w2 := snd (h _ question w1) in
  truthy_flag (forceYes o) = false ->
  fst (h _ (FsAccess agentDir) w) = Ok tt ->
  fst (h _ question w1) = Answered false ->
  out (run h (createAgent o) w) = Exited 0 /\
  trace (run h (createAgent o) w) =
    [Ev (FsAccess agentDir) (Ok tt); Ev question (Answered false);
     Ev diagnostic tt; EvExit 0] /\
  Forall (fun ev => is_destructive ev = false) (trace (run h (createAgent o) w)) /\
  write_calls (trace (run h (createAgent o) w)) = [] /\
  final (run h (createAgent o) w) = snd (h _ diagnostic w2).
Proof.
  intros agentDir question diagnostic w1 w2 Hf Hacc Hno.
  assert (Hrun : run h (createAgent o) w =
                 Execution (Exited 0)
                   [Ev (FsAccess agentDir) (Ok tt); Ev question (Answered false);
                    Ev diagnostic tt; EvExit 0]
                   (snd (h _ diagnostic w2))).
  { unfold createAgent. rewrite run_bind.
    unfold generateAgentFolder, isFolderExists, call. simpl.
    fold agentDir. rewrite Hacc. simpl. rewrite Hf. simpl.
    fold question w1. rewrite Hno. simpl.
    fold diagnostic w2. destruct (fst (h _ diagnostic w2)). reflexivity. }
  rewrite Hrun. simpl. repeat split.
  repeat constructor.
Qed.

(** On the reference machine the folder keeps the file that was in it. *)
Lemma declined_overwrite_exits_witness :
  out (run Ref.handle (createAgent (host := Ref.posix) Examples.weather_bot_asking)
         Examples.occupied) = Exited 0 /\
  trace (run Ref.handle (createAgent (host := Ref.posix) Examples.weather_bot_asking)
           Examples.occupied) =
    [Ev (FsAccess "/work/weather_bot") (Ok tt);
     Ev (SelectBool
           "Folder /work/weather_bot already exists. Would you like to overwrite existing folder?"
           [("Yes", true); ("No", false)]) (Answered false);
     Ev (ConsoleError "Agent directory /work/weather_bot already exists." None) tt;
     EvExit 0] /\
  Ref.fs (final (run Ref.handle
                   (createAgent (host := Ref.posix) Examples.weather_bot_asking)
                   Examples.occupied)) = Ref.fs Examples.occupied.
Proof.
  destruct (declined_overwrite_exits (host := Ref.posix) Ref.handle
              Examples.occupied Examples.weather_bot_asking
              eq_refl eq_refl eq_refl) as (Hout & Htrace & _ & _ & Hfinal).
  split; [exact Hout |]. split; [exact Htrace |].
  rewrite Hfinal. reflexivity.
Defined.

(** ** The probes *)

(** C9, as stated.  On a machine on which [GOOGLE_CLOUD_PROJECT] is set,
    to the empty string, [getGcpProject] does not return the variable: it
    runs the cloud tool and returns its trimmed output. *)
Lemma empty_variable_is_not_returned :
  fst (Ref.handle _ (GetEnv "GOOGLE_CLOUD_PROJECT")
         MoreExamples.empty_project_variable) = Some EmptyString /\
  run Ref.handle (getGcpProject (host := Ref.posix))
      MoreExamples.empty_project_variable =
    Execution (Returned "my-project")
      [Ev (GetEnv "GOOGLE_CLOUD_PROJECT") (Some EmptyString);
       Ev (ExecSync "gcloud config get-value project")
          (Ok ("my-project" +:+ nl))]
      MoreExamples.empty_project_variable.
Proof. split; vm_compute; reflexivity. Qed.

(** C9, amended.  Both probes keep the contract: the variable when it is
    set to a non-empty value, and then no command is run; when it is not
    set or is set to the empty string, the trimmed output of the cloud
    tool, or the empty string when the tool fails; and never an
    exception. *)
Theorem probes_keep_contract {host : Host} :
  probe_contract "GOOGLE_CLOUD_PROJECT" "gcloud config get-value project"
    getGcpProject /\
  probe_contract "GOOGLE_CLOUD_LOCATION"
    "gcloud config get-value compute/region" getGcpRegion.
Proof.
  split; intros W h w v w1 r; subst v w1 r;
    unfold getGcpProject, getGcpRegion, call; simpl;
    match goal with
    | |- context [truthy ?v] => destruct (truthy v)
    end; simpl.
  all: repeat split; try discriminate; eauto.
  all: try (intros ? Hr; rewrite Hr; reflexivity).
  all: match goal with
       | |- context [match ?r with _ => _ end] => destruct r; eauto
       end.
Qed.

(** On a machine with the region in the environment and the project in
    the configuration of the cloud tool, and on an empty machine. *)
Example probes_on_reference :
  out (run Ref.handle (getGcpRegion (host := Ref.posix)) Examples.cloudy) =
    Returned "europe-west1" /\
  out (run Ref.handle (getGcpProject (host := Ref.posix)) Examples.cloudy) =
    Returned "my-project" /\
  run Ref.handle (getGcpProject (host := Ref.posix)) Ref.empty =
    Execution (Returned EmptyString)
      [Ev (GetEnv "GOOGLE_CLOUD_PROJECT") None;
       Ev (ExecSync "gcloud config get-value project") (Err "Command failed")]
      Ref.empty.
Proof. repeat split; vm_compute; reflexivity. Qed.

(** ** Failures of the file system *)

(** C2, as stated.  On the reference machine [/work] is there, so that
    creating it fails; [createFolder] logs the failure and returns: nothing
    reaches the caller.  The same for the removal of a folder that is not
    there. *)
Lemma folder_failure_is_not_propagated :
  fst (Ref.handle _ (FsMkdir "/work") Ref.empty) = Err "EEXIST" /\
  out (run Ref.handle (createFolder "/work") Ref.empty) = Returned tt /\
  (forall e, out (run Ref.handle (createFolder "/work") Ref.empty) <> Thrown e) /\
  fst (Ref.handle _ (FsRm "/nowhere") Ref.empty) = Err "ENOENT" /\
  out (run Ref.handle (removeFolder "/nowhere") Ref.empty) = Returned tt /\
  (forall e, out (run Ref.handle (removeFolder "/nowhere") Ref.empty) <> Thrown e).
Proof.
  repeat split; try (vm_compute; reflexivity); intros e; vm_compute; discriminate.
Qed.

(** C2, amended.  A creation or a removal of a folder that fails is logged
    on the error stream with the path and the error, and the function
    returns as if nothing had happened.  A write that fails is logged with
    the path and the error and thrown again to the caller.  The check for
    existence answers false without a log, and the listing logs and answers
    the empty list. *)
Theorem folder_failures_are_logged_and_swallowed {W : Type} (h : handler W)
    (w : W) (p data : string) (e : JsError) :
  (fst (h _ (FsMkdir p) w) = Err e ->
   out (run h (createFolder p) w) = Returned tt /\
   trace (run h (createFolder p) w) =
     [Ev (FsMkdir p) (Err e);
      Ev (ConsoleError ("Failed to create folder " +:+ p) (Some e)) tt]) /\
  (fst (h _ (FsRm p) w) = Err e ->
   out (run h (removeFolder p) w) = Returned tt /\
   trace (run h (removeFolder p) w) =
     [Ev (FsRm p) (Err e);
      Ev (ConsoleError ("Failed to remove folder " +:+ p) (Some e)) tt]) /\
  (fst (h _ (FsWriteFile p data) w) = Err e ->
   out (run h (saveToFile p data) w) = Thrown e /\
   trace (run h (saveToFile p data) w) =
     [Ev (FsWriteFile p data) (Err e);
      Ev (ConsoleError ("Failed to write file " +:+ p +:+ ":") (Some e)) tt]) /\
  (fst (h _ (FsAccess p) w) = Err e ->
   out (run h (isFolderExists p) w) = Returned false /\
   trace (run h (isFolderExists p) w) = [Ev (FsAccess p) (Err e)]) /\
  (fst (h _ (FsReaddir p) w) = Err e ->
   out (run h (listFiles p) w) = Returned [] /\
   trace (run h (listFiles p) w) =
     [Ev (FsReaddir p) (Err e);
      Ev (ConsoleError ("Failed to list files in folder " +:+ p) (Some e)) tt]).
Proof.
  unfold createFolder, removeFolder, saveToFile, isFolderExists, listFiles, call.
  split; [| split; [| split; [| split]]]; intros Hfail; simpl;
    rewrite Hfail; simpl;
    try match goal with
        | |- context [fst (h unit ?c ?w')] => destruct (fst (h unit c w'))
        end;
    split; reflexivity.
Qed.

(** A failed creation on the reference machine, with what is logged. *)
Example createFolder_on_reference :
  run Ref.handle (createFolder "/work") Ref.empty =
  Execution (Returned tt)
    [Ev (FsMkdir "/work") (Err "EEXIST");
     Ev (ConsoleError "Failed to create folder /work" (Some "EEXIST")) tt]
    (Ref.with_console Ref.empty "Failed to create folder /work").
Proof. vm_compute. reflexivity. Qed.

End Claims.

(** * Beyond the claims *)

(** ** Splitting and joining *)

Lemma str_app_assoc (a b c : string) : (a +:+ b) +:+ c = a +:+ (b +:+ c).
Proof.
  induction a as [| x a IH]; [reflexivity |].
  change (String x ((a +:+ b) +:+ c) = String x (a +:+ (b +:+ c))).
  rewrite IH. reflexivity.
Qed.

Lemma str_length_app (a b : string) :
  String.length (a +:+ b) = String.length a + String.length b.
Proof.
  induction a as [| x a IH]; [reflexivity |].
  change (S (String.length (a +:+ b)) = S (String.length a + String.length b)).
  rewrite IH. reflexivity.
Qed.

Lemma starts_with_app (p s : string) :
  starts_with p s = true -> exists r, s = p +:+ r.
Proof.
  revert s. induction p as [| a p IH]; intros s; simpl.
  - intros _. exists s. reflexivity.
  - destruct s as [| b s]; [discriminate |].
    intros H. apply andb_prop in H as [Hab Hp].
    apply Ascii.eqb_eq in Hab as ->.
    destruct (IH s Hp) as [r ->]. exists r. reflexivity.
Qed.

Lemma starts_with_refl_app (p r : string) : starts_with p (p +:+ r) = true.
Proof.
  induction p as [| a p IH]; simpl; [reflexivity |].
  rewrite Ascii.eqb_refl. exact IH.
Qed.

(** A text that starts with [p] still does when more is put behind. *)
Lemma starts_with_more (p s t : string) :
  starts_with p s = true -> starts_with p (s +:+ t) = true.
Proof.
  intros H. destruct (starts_with_app p s H) as [r ->].
  rewrite str_app_assoc. apply starts_with_refl_app.
Qed.

Lemma split_from_nonempty sep k s : split_from sep k s <> [].
Proof.
  revert k. induction s as [| c r IH]; intros k; simpl; [discriminate |].
  destruct k as [| k]; [| apply IH].
  destruct (starts_with sep (String c r)); [discriminate |].
  destruct (split_from sep 0 r); discriminate.
Qed.

(** Skipping: what is left of a separator is passed over. *)
Lemma split_from_skip sep (a r : string) :
  split_from sep (String.length a) (a +:+ r) = split_from sep 0 r.
Proof.
  induction a as [| c a IH]; simpl; [| exact IH].
  destruct r; reflexivity.
Qed.

Lemma concat_cons_head sep c x xs :
  String.concat sep (String c x :: xs) = String c (String.concat sep (x :: xs)).
Proof. destruct xs; reflexivity. Qed.

Lemma split_from_join_bounded sep (n : nat) :
  sep <> EmptyString ->
  forall s, String.length s <= n -> js_join sep (split_from sep 0 s) = s.
Proof.
  intros Hsep. unfold js_join.
  induction n as [| n IH]; intros s Hlen.
  - destruct s; [reflexivity | simpl in Hlen; lia].
  - destruct s as [| c r]; [reflexivity |].
    simpl in Hlen. simpl.
    destruct (starts_with sep (String c r)) eqn:Hst.
    + destruct (starts_with_app _ _ Hst) as [r' Hr'].
      destruct sep as [| d sep']; [contradiction |].
      change (String c r = String d (sep' +:+ r')) in Hr'.
      injection Hr' as Hc Hr2. subst c r.
      simpl. rewrite Nat.sub_0_r, split_from_skip.
      pose proof (split_from_nonempty (String d sep') 0 r') as Hne.
      assert (Hr : String.length r' <= n).
      { rewrite str_length_app in Hlen. lia. }
      specialize (IH r' Hr).
      destruct (split_from (String d sep') 0 r') as [| x xs] eqn:E;
        [contradiction |].
      change (String.concat (String d sep') (EmptyString :: x :: xs))
        with (String d sep' +:+ String.concat (String d sep') (x :: xs)).
      rewrite IH. reflexivity.
    + pose proof (split_from_nonempty sep 0 r) as Hne.
      assert (Hr : String.length r <= n) by lia.
      specialize (IH r Hr).
      destruct (split_from sep 0 r) as [| x xs] eqn:E; [contradiction |].
      rewrite concat_cons_head, IH. reflexivity.
Qed.

Lemma join_chars s :
  String.concat EmptyString
    (map (fun c => String c EmptyString) (list_ascii_of_string s)) = s.
Proof.
  induction s as [| c r IH]; [reflexivity |].
  change (list_ascii_of_string (String c r)) with (c :: list_ascii_of_string r).
  rewrite map_cons.
  transitivity (String c (String.concat EmptyString
     (map (fun c => String c EmptyString) (list_ascii_of_string r)))).
  - destruct (map _ (list_ascii_of_string r)); reflexivity.
  - rewrite IH. reflexivity.
Qed.

(** A text without the separator is one piece. *)
Lemma split_from_no_sep sep s :
  includes sep s = false -> split_from sep 0 s = [s].
Proof.
  induction s as [| c r IH]; [reflexivity |].
  cbn [includes]. intros H. apply orb_false_elim in H as [Hst Hr].
  cbn [split_from]. rewrite Hst, (IH Hr). reflexivity.
Qed.

(** The first piece has no separator in it, the text starts with it, and
    what follows it is nothing or starts with the separator. *)
Lemma split_from_head sep s x xs :
  sep <> EmptyString ->
  split_from sep 0 s = x :: xs ->
  includes sep x = false /\
  exists t, s = x +:+ t /\ (t = EmptyString \/ starts_with sep t = true).
Proof.
  intros Hsep. revert x xs.
  assert (Hempty : includes sep EmptyString = false).
  { destruct sep; [contradiction | reflexivity]. }
  induction s as [| c r IH]; intros x xs.
  - simpl. intros [= <- <-]. split; [exact Hempty |].
    exists EmptyString. split; [reflexivity | left; reflexivity].
  - cbn [split_from]. destruct (starts_with sep (String c r)) eqn:Hst.
    + intros [= <- _]. split; [exact Hempty |].
      exists (String c r). split; [reflexivity | right; exact Hst].
    + destruct (split_from sep 0 r) as [| x' xs'] eqn:E.
      { destruct (split_from_nonempty sep 0 r E). }
      intros [= <- <-].
      destruct (IH x' xs' eq_refl) as (Hx' & t & -> & Ht).
      split.
      * cbn [includes]. rewrite Hx', orb_false_r.
        destruct (starts_with sep (String c x')) eqn:Hc; [| reflexivity].
        apply (starts_with_more _ _ t) in Hc.
        change (String c x' +:+ t) with (String c (x' +:+ t)) in Hc. congruence.
      * exists t. split; [reflexivity | exact Ht].
Qed.

(** ** Words of the command line *)





Section ExtraArgs.
Import Router.
Context {V : Type} (inherited : string -> bool) (options : gmap string V).

Lemma collect_extra_filter (args acc : list string) :
  collect_extra inherited options args acc =
  acc ++ List.filter
           (fun arg => negb (has_property inherited options (arg_name arg))) args.
Proof.
  revert acc. induction args as [| arg rest IH]; intros acc; simpl.
  - rewrite app_nil_r. reflexivity.
  - destruct (has_property inherited options (arg_name arg)); simpl.
    + apply IH.
    + rewrite IH, <- app_assoc. reflexivity.
Qed.

Lemma filter_sublist (f : string -> bool) (l : list string) :
  sublist (List.filter f l) l.
Proof.
  induction l as [| a l IH]; simpl; [constructor |].
  destruct (f a); [apply sublist_skip | apply sublist_cons]; exact IH.
Qed.

End ExtraArgs.

(** ** The artifact service of a URI *)

Section ArtifactUri.
Import Router.

(** X1.  [getArtifactServiceFromUri] returns a service exactly for the
    URIs that start with [gs://] and throws for every other one, with the
    URI in the message.  The bucket of the service is never [undefined]: it
    is the text that stands between [gs://] and the next [://], or the end
    of the URI when there is none; whatever follows is dropped without a
    word. *)
Theorem artifact_service_of_uri (uri : string) :
  (starts_with "gs://" uri = false ->
   getArtifactServiceFromUri uri =
   Err ("Unsupported artifact service URI: " +:+ uri)) /\
  (starts_with "gs://" uri = true ->
   exists bucket rest,
     getArtifactServiceFromUri uri = Ok (GcsArtifactService (Some bucket)) /\
     uri = "gs://" +:+ bucket +:+ rest /\
     includes "://" bucket = false /\
     (rest = EmptyString \/ starts_with "://" rest = true)).
Proof.
  unfold getArtifactServiceFromUri. split; intros Hgs; rewrite Hgs;
    [reflexivity |].
  destruct (starts_with_app _ _ Hgs) as [u ->].
  change (js_split "://" ("gs://" +:+ u))
    with ("gs" :: split_from "://" 0 u).
  destruct (split_from "://" 0 u) as [| x xs] eqn:E.
  { destruct (split_from_nonempty _ _ _ E). }
  destruct (split_from_head "://" u x xs) as (Hx & t & -> & Ht);
    [discriminate | exact E |].
  exists x, t. repeat split; [exact Hx | exact Ht].
Qed.

(** X2.  A bucket name without [://] in it comes back as it went in: the
    service of [gs://] followed by the name has that name as its bucket.
    This holds for the empty name too, so that [gs://] alone is accepted
    and gives the empty bucket. *)
Theorem artifact_bucket_round_trip (bucket : string) :
  includes "://" bucket = false ->
  getArtifactServiceFromUri ("gs://" +:+ bucket) =
  Ok (GcsArtifactService (Some bucket)).
Proof.
  intros Hb. unfold getArtifactServiceFromUri.
  rewrite starts_with_refl_app.
  change (js_split "://" ("gs://" +:+ bucket))
    with ("gs" :: split_from "://" 0 bucket).
  rewrite (split_from_no_sep _ _ Hb). reflexivity.
Qed.

Lemma artifact_bucket_round_trip_witness :
  getArtifactServiceFromUri "gs://my-bucket/sessions" =
    Ok (GcsArtifactService (Some "my-bucket/sessions")) /\
  getArtifactServiceFromUri "gs://" = Ok (GcsArtifactService (Some EmptyString)).
Proof.
  split.
  - exact (artifact_bucket_round_trip "my-bucket/sessions" eq_refl).
  - exact (artifact_bucket_round_trip EmptyString eq_refl).
Defined.

End ArtifactUri.

(** ** The extra arguments of [deploy cloud_run] *)

Section ExtraArgsTheorems.
Import Router.
Context {V : Type} (inherited : string -> bool) (options : gmap string V).

(** X3.  The words handed on to the cloud tool are words of the command
    line after the fifth, in the order they were given, each as often as it
    was given there: exactly those whose name is not a property of the
    options.  The first five words are never handed on, whatever they
    are. *)
Theorem extra_args_are_the_unknown_words (argv : list string) :
  sublist (extraGcloudArgs inherited options argv) (drop 5 argv) /\
  extraGcloudArgs inherited options argv =
    List.filter (fun arg => negb (has_property inherited options (arg_name arg)))
      (drop 5 argv) /\
  (forall arg,
     In arg (extraGcloudArgs inherited options argv) <->
     In arg (drop 5 argv) /\
     has_property inherited options (arg_name arg) = false) /\
  (length argv <= 5 -> extraGcloudArgs inherited options argv = [])%nat.
Proof.
  unfold extraGcloudArgs. rewrite collect_extra_filter. cbn [app].
  split; [apply filter_sublist |]. split; [reflexivity |]. split.
  - intros arg. rewrite filter_In, negb_true_iff. reflexivity.
  - intros Hlen. rewrite drop_ge by exact Hlen. reflexivity.
Qed.


End ExtraArgsTheorems.


(** ** The search for a file *)

Section Search.
Import FileUtils FileSearch.
Context {host : Host} (number_text : Z -> string) {W : Type} (h : handler W).

Lemma search_spec (fileName : string) (msg : JsError) (n : nat) :
  forall (folder : string) (w : W),
    (forall p, out (run h (search fileName n folder (Throw msg)) w) = Returned p ->
       exists k,
         candidates fileName n folder !! k = Some p /\
         access_results (trace (run h (search fileName n folder (Throw msg)) w)) =
         map (fun q => (q, false)) (take k (candidates fileName n folder)) ++
         [(p, true)]) /\
    (forall e, out (run h (search fileName n folder (Throw msg)) w) = Thrown e ->
       e = msg /\
       access_results (trace (run h (search fileName n folder (Throw msg)) w)) =
       map (fun q => (q, false)) (candidates fileName n folder)) /\
    (forall c, out (run h (search fileName n folder (Throw msg)) w) <> Exited c) /\
    Forall (fun ev => event_is is_not_access_call ev = false)
      (trace (run h (search fileName n folder (Throw msg)) w)).
Proof.
  induction n as [| n IH]; intros folder w.
  - simpl. split; [| split; [| split]].
    + intros p Hp. discriminate Hp.
    + intros e [= <-]. split; reflexivity.
    + intros c Hc. discriminate Hc.
    + constructor.
  - cbn [search candidates]. unfold isFolderExists, call. cbn [bind run].
    cbn [out trace final].
    destruct (fst (h _ (FsAccess (path_join folder fileName)) w)) as [[] | e0].
    + cbn [bind run out trace]. split; [| split; [| split]].
      * intros p [= <-]. exists 0%nat. split; reflexivity.
      * intros e He. discriminate He.
      * intros c Hc. discriminate Hc.
      * repeat constructor.
    + cbn [bind run out trace].
      destruct (IH (path_join folder "../")
                  (snd (h _ (FsAccess (path_join folder fileName)) w)))
        as (Hret & Hthrow & Hexit & Honly).
      split; [| split; [| split]].
      * intros p Hp. destruct (Hret p Hp) as (k & Hk & Htr).
        exists (S k). split; [exact Hk |].
        change (access_results (?ev :: ?tr))
          with (match access_result ev with
                | Some y => y :: access_results tr
                | None => access_results tr
                end).
        cbn [access_result]. rewrite Htr. reflexivity.
      * intros e He. split; [exact (proj1 (Hthrow e He)) |].
        change (access_results (?ev :: ?tr))
          with (match access_result ev with
                | Some y => y :: access_results tr
                | None => access_results tr
                end).
        cbn [access_result]. rewrite (proj2 (Hthrow e He)). reflexivity.
      * exact Hexit.
      * constructor; [reflexivity | exact Honly].
Qed.

Lemma candidates_length (fileName : string) (n : nat) (folder : string) :
  length (candidates fileName n folder) = n.
Proof.
  revert folder. induction n as [| n IH]; intros folder; [reflexivity |].
  cbn [candidates length]. rewrite IH. reflexivity.
Qed.

End Search.

Section SearchTheorems.
Import FileUtils FileSearch.
Context {host : Host} (number_text : Z -> string) {W : Type} (h : handler W).

(** X5.  [tryToFindFileRecursively] looks for the file in the folder, then
    in its parent, then in the parent of that, at most [maxIterations]
    places, and does nothing else: it only checks for existence.  When it
    returns, it returns the first of these paths that is there, and every
    path before it was checked and was not there.  When it throws, all
    [maxIterations] places were checked and none had the file, and the
    message names the file, the folder and the number.  It never ends the
    process. *)
Theorem search_returns_first_hit (sourceFolder fileName : string)
    (maxIterations : Z) (w : W) :
  let places := candidates fileName (Z.to_nat maxIterations) sourceFolder in
  let ex :=
    run h (tryToFindFileRecursively number_text sourceFolder fileName
             maxIterations) w in
  (forall p, out ex = Returned p ->
     exists k,
       places !! k = Some p /\
       access_results (trace ex) =
       map (fun q => (q, false)) (take k places) ++ [(p, true)]) /\
  (forall e, out ex = Thrown e ->
     e = "No " +:+ fileName +:+ " found in " +:+ sourceFolder +:+
         " or its parent folders up to " +:+ number_text maxIterations +:+
         " levels." /\
     access_results (trace ex) = map (fun q => (q, false)) places) /\
  (forall c, out ex <> Exited c) /\
  Forall (fun ev => event_is is_not_access_call ev = false) (trace ex) /\
  length places = Z.to_nat maxIterations.
Proof.
  intros places ex.
  destruct (search_spec h fileName
              ("No " +:+ fileName +:+ " found in " +:+ sourceFolder +:+
               " or its parent folders up to " +:+ number_text maxIterations +:+
               " levels.")
              (Z.to_nat maxIterations) sourceFolder w)
    as (Hret & Hthrow & Hexit & Honly).
  split; [exact Hret |]. split; [exact Hthrow |]. split; [exact Hexit |].
  split; [exact Honly |]. apply candidates_length.
Qed.

(** X6.  With a [maxIterations] that is zero or negative the search throws
    at once and looks nowhere, not even in the folder it was given. *)
Theorem search_without_rounds_throws (sourceFolder fileName : string)
    (maxIterations : Z) (w : W) :
  (maxIterations <= 0)%Z ->
  run h (tryToFindFileRecursively number_text sourceFolder fileName
           maxIterations) w =
  Execution
    (Thrown ("No " +:+ fileName +:+ " found in " +:+ sourceFolder +:+
             " or its parent folders up to " +:+ number_text maxIterations +:+
             " levels."))
    [] w.
Proof.
  intros Hmax. unfold tryToFindFileRecursively.
  rewrite Z2Nat.nonpos by exact Hmax. reflexivity.
Qed.

End SearchTheorems.

Lemma search_without_rounds_throws_witness :
  run Ref.handle
    (FileSearch.tryToFindFileRecursively (host := Ref.posix) decimal_text
       "/work" "package.json" (-1)) Ref.empty =
  Execution
    (Thrown "No package.json found in /work or its parent folders up to -1 levels.")
    [] Ref.empty.
Proof.
  exact (search_without_rounds_throws (host := Ref.posix) decimal_text
           Ref.handle "/work" "package.json" (-1) Ref.empty ltac:(lia)).
Defined.

(** A search on the reference machine, whose [path_join] does not
    normalise: the file is not in the folder and is in its parent. *)
Example search_on_reference :
  run Ref.handle
    (FileSearch.tryToFindFileRecursively (host := Ref.posix) decimal_text
       "/work/agent" "package.json" 3)
    (Ref.with_fs Ref.empty
       [("/work", Ref.Dir); ("/work/agent", Ref.Dir);
        ("/work/agent/..//package.json", Ref.File "{}")]) =
  Execution (Returned "/work/agent/..//package.json")
    [Ev (FsAccess "/work/agent/package.json") (Err "ENOENT");
     Ev (FsAccess "/work/agent/..//package.json") (Ok tt)]
    (Ref.with_fs Ref.empty
       [("/work", Ref.Dir); ("/work/agent", Ref.Dir);
        ("/work/agent/..//package.json", Ref.File "{}")]).
Proof. vm_compute. reflexivity. Qed.

(** ** More on programs and their runs *)

Lemma never_exits_bind {A B} (p : Prog A) (f : A -> Prog B) :
  never_exits p -> (forall a, never_exits (f a)) -> never_exits (bind p f).
Proof.
  induction p as [a | e | c | X e k IH]; simpl; intros Hp Hf; auto.
Qed.

Lemma never_exits_forEach {A} (l : list A) (f : A -> Prog unit) :
  (forall a, never_exits (f a)) -> never_exits (forEach l f).
Proof.
  intros Hf. induction l as [| a l IH]; simpl; [exact I |].
  apply never_exits_bind; auto.
Qed.

Lemma never_exits_run {W A} (h : handler W) (p : Prog A) w c :
  never_exits p -> out (run h p w) <> Exited c.
Proof.
  revert w. induction p as [a | e | c' | X e k IH]; simpl; intros w Hp.
  - discriminate.
  - discriminate.
  - contradiction.
  - apply IH, Hp.
Qed.

(** A program that never prompts has no prompt to exit on. *)
Lemma exits_on_cancel_silent {A} (p : Prog A) :
  avoids is_prompt_call p -> exits_on_cancel p.
Proof.
  induction p as [a | e | c | X e k IH]; simpl; auto.
  intros [He Hk]. split; [| intros x; apply IH, Hk].
  destruct e; try exact I; discriminate He.
Qed.

Lemma exits_on_cancel_bind {A B} (p : Prog A) (f : A -> Prog B) :
  exits_on_cancel p -> (forall a, exits_on_cancel (f a)) ->
  exits_on_cancel (bind p f).
Proof.
  induction p as [a | e | c | X e k IH]; simpl; intros Hp Hf; auto.
  destruct Hp as [He Hk]. split; [| intros x; apply IH; auto].
  destruct e; try exact I.
  - rewrite He. reflexivity.
  - rewrite He. reflexivity.
  - intros Hmsg. rewrite (He Hmsg). reflexivity.
Qed.

(** A cancelled prompt in the trace means that the process exited with
    status 0. *)
Lemma exits_on_cancel_run {W A} (h : handler W) (p : Prog A) w :
  exits_on_cancel p ->
  existsb cancelled_prompt (trace (run h p w)) = true ->
  out (run h p w) = Exited 0.
Proof.
  revert w. induction p as [a | e | c | X e k IH]; simpl; intros w Hp Hc;
    try discriminate Hc.
  destruct Hp as [He Hk].
  apply orb_true_iff in Hc as [Hc | Hc]; [| apply IH; [apply Hk | exact Hc]].
  destruct e; try discriminate Hc;
    destruct (fst (h _ _ w)) eqn:Ea; try discriminate Hc.
  - rewrite He. reflexivity.
  - rewrite He. reflexivity.
  - rewrite He; [reflexivity |].
    apply negb_true_iff in Hc. exact Hc.
Qed.

(** The run stops there: the cancelled prompt is the first one of the
    trace, and the exit is all that comes after it. *)
Lemma exits_on_cancel_trace {W A} (h : handler W) (p : Prog A) w :
  exits_on_cancel p ->
  existsb cancelled_prompt (trace (run h p w)) = true ->
  exists before ev,
    trace (run h p w) = before ++ [ev; EvExit 0] /\
    cancelled_prompt ev = true /\
    existsb cancelled_prompt before = false.
Proof.
  revert w.
  induction p as [a | e | c | X e k IH];
    cbn [run trace existsb exits_on_cancel]; intros w Hp Hc;
    try discriminate Hc.
  destruct Hp as [He Hk].
  destruct (cancelled_prompt (Ev e (fst (h X e w)))) eqn:Hc0.
  - exists [], (Ev e (fst (h X e w))).
    split; [| split; [exact Hc0 | reflexivity]].
    clear Hc. cbn [app]. f_equal.
    destruct e; try discriminate Hc0; cbn [cancelled_prompt] in Hc0;
      destruct (fst (h _ _ w)) eqn:Ea; try discriminate Hc0.
    + rewrite He. reflexivity.
    + rewrite He. reflexivity.
    + rewrite He; [reflexivity |]. apply negb_true_iff in Hc0. exact Hc0.
  - cbn [orb] in Hc.
    destruct (IH _ _ (Hk _) Hc) as (before & ev & Htr & Hev & Hb).
    exists (Ev e (fst (h X e w)) :: before), ev. rewrite Htr.
    split; [reflexivity |]. split; [exact Hev |].
    cbn [existsb]. rewrite Hc0. exact Hb.
Qed.

Lemma existsb_false_Forall {A} (f : A -> bool) (l : list A) :
  Forall (fun x => f x = false) l -> existsb f l = false.
Proof.
  induction 1 as [| x l Hx _ IH]; [reflexivity |].
  simpl. rewrite Hx, IH. reflexivity.
Qed.

Lemma no_write_no_failed_write tr :
  Forall (fun ev => event_is is_write_call ev = false) tr ->
  existsb failed_write tr = false.
Proof.
  intros H. apply existsb_false_Forall. eapply Forall_impl; [exact H |].
  intros [X e x |] Hev; [| reflexivity].
  destruct e; try reflexivity. discriminate Hev.
Qed.

Lemma no_exec_no_failed_exec tr :
  Forall (fun ev => event_is is_exec_call ev = false) tr ->
  existsb failed_exec tr = false.
Proof.
  intros H. apply existsb_false_Forall. eapply Forall_impl; [exact H |].
  intros [X e x |] Hev; [| reflexivity].
  destruct e; try reflexivity. discriminate Hev.
Qed.

Lemma folder_calls_app t1 t2 :
  folder_calls (t1 ++ t2) = folder_calls t1 ++ folder_calls t2.
Proof. apply omap_app. Qed.

(** Checks a property of the tree of a program whose calls are laid open,
    node by node. *)
Ltac walk_tree :=
  repeat (simpl;
    match goal with
    | |- True => exact I
    | |- _ = _ => reflexivity
    | H : true = false |- _ => discriminate H
    | H : false = true |- _ => discriminate H
    | |- _ /\ _ => split
    | |- forall _, _ => intro
    | |- context [if ?b then _ else _] => destruct b eqn:?
    | |- context [match ?x with _ => _ end] => destruct x eqn:?
    end).

(** ** Cancelling *)

Section Cancelling.
Import FileUtils CliCreate.
Context {host : Host}.

Lemma fromGeneration_never_exits d o : never_exits (fromGeneration d o).
Proof.
  unfold fromGeneration.
  apply never_exits_bind; [open_blocks; walk_tree | intros _].
  apply never_exits_bind; [open_blocks; walk_tree | intros _].
  unfold reportFiles.
  apply never_exits_bind; [open_blocks; walk_tree | intros files].
  apply never_exits_bind; [unfold call; walk_tree | intros _].
  apply never_exits_bind; [| intros _; unfold call; walk_tree].
  apply never_exits_forEach. intros file. unfold call. walk_tree.
Qed.

Lemma createAgent_exits_on_cancel o : exits_on_cancel (createAgent o).
Proof.
  unfold createAgent.
  apply exits_on_cancel_bind;
    [open_blocks; unfold project_question; walk_tree | intros _].
  apply exits_on_cancel_bind;
    [open_blocks; unfold project_question; walk_tree | intros o1].
  apply exits_on_cancel_bind;
    [open_blocks; unfold project_question; walk_tree | intros o2].
  apply exits_on_cancel_bind;
    [open_blocks; unfold project_question; walk_tree | intros o3].
  apply exits_on_cancel_silent, fromGeneration_silent.
Qed.

(** When the statements before [generateFiles] do not return, nothing is
    written and nothing is installed. *)
Lemma createAgent_stopped_early {W} (h : handler W) o w :
  (forall o', out (run h (untilGeneration o) w) <> Returned o') ->
  run h (createAgent o) w =
  Execution (out (run h (createAgent o) w)) (trace (run h (untilGeneration o) w))
    (final (run h (untilGeneration o) w)) /\
  write_calls (trace (run h (createAgent o) w)) = [] /\
  exec_calls (trace (run h (createAgent o) w)) = [].
Proof.
  intros Hno. rewrite run_createAgent, run_bind.
  pose proof (write_calls_none _
    (avoids_run _ h _ w (untilGeneration_no_write o))) as Hw.
  pose proof (exec_calls_none _
    (avoids_run _ h _ w (untilGeneration_no_exec o))) as He.
  destruct (out (run h (untilGeneration o) w)) as [o' | e | c];
    [destruct (Hno o' eq_refl) | |]; cbn [out trace final]; auto.
Qed.

End Cancelling.

Section CancellingTheorems.
Import FileUtils CliCreate.
Context {host : Host} {W : Type} (h : handler W).

(** X7.  When the user cancels the question about the overwrite, the
    model, the language, the backend, the region or the key, [createAgent]
    ends the process with status 0 right there: the cancelled prompt is the
    first one of the run, the exit is the only thing that follows it, no
    file has been written and no install has been run.  (The prompt for the
    project is not among them.) *)
Theorem cancelled_prompt_ends_the_run (w : W) (o : AgentCreationOptions) :
  existsb cancelled_prompt (trace (run h (createAgent o) w)) = true ->
  exists before ev,
    trace (run h (createAgent o) w) = before ++ [ev; EvExit 0] /\
    cancelled_prompt ev = true /\
    existsb cancelled_prompt before = false /\
    out (run h (createAgent o) w) = Exited 0 /\
    write_calls (trace (run h (createAgent o) w)) = [] /\
    exec_calls (trace (run h (createAgent o) w)) = [].
Proof.
  intros Hc.
  pose proof (exits_on_cancel_run h _ w (createAgent_exits_on_cancel o) Hc)
    as Hout.
  destruct (exits_on_cancel_trace h _ w (createAgent_exits_on_cancel o) Hc)
    as (before & ev & Htr & Hev & Hb).
  exists before, ev.
  split; [exact Htr |]. split; [exact Hev |]. split; [exact Hb |].
  split; [exact Hout |].
  apply createAgent_stopped_early. intros o' Ho'.
  rewrite run_createAgent, run_bind, Ho' in Hout. cbn [out] in Hout.
  exact (never_exits_run h _ _ 0%Z (fromGeneration_never_exits _ o') Hout).
Qed.

End CancellingTheorems.

Lemma cancelled_prompt_ends_the_run_witness :
  exists before ev,
    trace (run Ref.handle
         (CliCreate.createAgent (host := Ref.posix) Examples.weather_bot_asking)
         Ref.empty) = before ++ [ev; EvExit 0] /\
    cancelled_prompt ev = true /\
    existsb cancelled_prompt before = false /\
    out (run Ref.handle
         (CliCreate.createAgent (host := Ref.posix) Examples.weather_bot_asking)
         Ref.empty) = Exited 0 /\
    write_calls (trace (run Ref.handle
         (CliCreate.createAgent (host := Ref.posix) Examples.weather_bot_asking)
         Ref.empty)) = [] /\
    exec_calls (trace (run Ref.handle
         (CliCreate.createAgent (host := Ref.posix) Examples.weather_bot_asking)
         Ref.empty)) = [].
Proof.
  exact (cancelled_prompt_ends_the_run (host := Ref.posix) Ref.handle Ref.empty
           Examples.weather_bot_asking eq_refl).
Defined.

Section ProjectPrompt.
Import FileUtils CliCreate.
Context {host : Host} {W : Type} (h : handler W).

(** X8.  Cancelling the prompt for the project does not end the process.
    The answer is turned into a string before it is tested, so the test
    for a cancel never holds: the project becomes the text of the cancel
    symbol, and the workflow goes on to ask for the region.  ([d1] and
    [d2] are what the two probes found.) *)
Theorem project_prompt_cancel_goes_on (w : W) (o : AgentCreationOptions)
    (d1 d2 r : string) :
  truthy_flag (forceYes o) = false ->
  out (run h getGcpProject w) = Returned d1 ->
  out (run h getGcpRegion (final (run h getGcpProject w))) = Returned d2 ->
  fst (h _ (Text project_question (Some d1))
         (final (run h getGcpRegion (final (run h getGcpProject w))))) =
    Cancelled ->
  fst (h _ (Text "Enter the Google Cloud Region" (Some d2))
         (snd (h _ (Text project_question (Some d1))
                 (final (run h getGcpRegion (final (run h getGcpProject w))))))) =
    Answered r ->
  out (run h (chooseVertex o) w) =
    Returned (set_region (set_project o cancel_text) r) /\
  project (set_region (set_project o cancel_text) r) = Some cancel_text.
Proof.
  intros Hf H1 H2 H3 H4. split; [| reflexivity].
  unfold chooseVertex.
  rewrite run_bind, H1. cbn [out trace final].
  rewrite run_bind, H2. cbn [out trace final].
  rewrite Hf. unfold call. cbn [bind run out trace final].
  unfold project_question in H3, H4.
  rewrite H3. cbn [answer_toString bind run out].
  cbn [forceYes set_project]. rewrite Hf. cbn [bind run out].
  rewrite H4. reflexivity.
Qed.

End ProjectPrompt.

Lemma project_prompt_cancel_goes_on_witness :
  out (run Ref.handle
         (CliCreate.chooseVertex (host := Ref.posix) Examples.weather_bot_asking)
         MoreExamples.cancels_project) =
    Returned (CliCreate.set_region
                (CliCreate.set_project Examples.weather_bot_asking
                   "Symbol(clack:cancel)") "us-east1") /\
  CliCreate.project
    (CliCreate.set_region
       (CliCreate.set_project Examples.weather_bot_asking
          "Symbol(clack:cancel)") "us-east1") = Some "Symbol(clack:cancel)".
Proof.
  exact (project_prompt_cancel_goes_on (host := Ref.posix) Ref.handle
           MoreExamples.cancels_project Examples.weather_bot_asking
           EmptyString EmptyString "us-east1"
           eq_refl eq_refl eq_refl eq_refl eq_refl).
Defined.

(** On the reference machine the whole workflow then writes an environment
    file for the project [Symbol(clack:cancel)]. *)
Example cancelled_project_in_env_file :
  write_calls (trace (run Ref.handle
     (CliCreate.createAgent (host := Ref.posix) Examples.weather_bot_asking)
     MoreExamples.picks_vertex_cancels_project)) !! 1%nat =
  Some ("/work/weather_bot/.env",
        "GOOGLE_CLOUD_PROJECT=Symbol(clack:cancel)" +:+ nl +:+
        "GOOGLE_CLOUD_LOCATION=us-east1" +:+ nl +:+
        "GOOGLE_GENAI_USE_VERTEXAI=1").
Proof. vm_compute. reflexivity. Qed.

(** ** Force mode *)

Section ForceMode.
Import FileUtils CliCreate.
Context {host : Host}.

Lemma force_model_keeps o : forceYes (force_model o) = forceYes o.
Proof. unfold force_model. destruct (truthy (model o)); reflexivity. Qed.

Lemma force_language_keeps o : forceYes (force_language o) = forceYes o.
Proof.
  unfold force_language.
  destruct (strict_eq (language o) "js" || strict_eq (language o) "ts");
    reflexivity.
Qed.

Lemma chooseModel_force o :
  forceYes o = Some true ->
  returns (chooseModel o) (fun o' => o' = force_model o).
Proof.
  intros Hf. unfold chooseModel, force_model, call. rewrite Hf.
  destruct (truthy (model o)); reflexivity.
Qed.

Lemma chooseLanguage_force o :
  forceYes o = Some true ->
  returns (chooseLanguage o) (fun o' => o' = force_language o).
Proof.
  intros Hf. unfold chooseLanguage, force_language, call. rewrite Hf.
  destruct (strict_eq (language o) "js"), (strict_eq (language o) "ts");
    reflexivity.
Qed.

Lemma chooseBackend_force o :
  forceYes o = Some true ->
  returns (chooseBackend o) (fun o' => o' = force_backend o).
Proof.
  intros Hf. unfold chooseBackend, chooseApiKey, force_backend, call.
  rewrite Hf.
  destruct (truthy (apiKey o)), (truthy (project o)); reflexivity.
Qed.

Lemma untilGeneration_force o :
  forceYes o = Some true ->
  returns (untilGeneration o) (fun o' => o' = force_defaults o).
Proof.
  intros Hf. unfold untilGeneration, force_defaults.
  eapply returns_bind with (P := fun _ => True).
  { open_blocks. rewrite Hf. walk_returns. }
  intros _ _.
  eapply returns_bind; [apply chooseModel_force, Hf |].
  intros o1 ->.
  eapply returns_bind;
    [apply chooseLanguage_force; rewrite force_model_keeps; exact Hf |].
  intros o2 ->.
  apply chooseBackend_force.
  rewrite force_language_keeps, force_model_keeps. exact Hf.
Qed.

Lemma force_mode_defaults_reached {W} (h : handler W) w o :
  forceYes o = Some true ->
  out (run h (untilGeneration o) w) = Returned (force_defaults o).
Proof.
  intros Hf.
  destruct (always_returns_run h _ w (untilGeneration_force_returns o Hf))
    as [o' Ho'].
  rewrite Ho'. f_equal.
  exact (returns_run h _ _ w o' (untilGeneration_force o Hf) Ho').
Qed.

(** The first write of [generateFiles] is always asked for. *)
Lemma generateFiles_first_write {W} (h : handler W) o w :
  write_calls (trace (run h (generateFiles o) w)) !! 0%nat =
  candidate_files o !! 0%nat.
Proof.
  unfold generateFiles, candidate_files, saveToFile, call.
  cbn [bind run trace]. reflexivity.
Qed.

End ForceMode.

Section ForceModeTheorems.
Import FileUtils CliCreate.
Context {host : Host} {W : Type} (h : handler W).

(** X9.  In force mode the statements before [generateFiles] always run
    to their end, whatever the machine answers (the folder may be there or
    not, its removal and its creation may fail), and the record that
    reaches file generation is the same every time: the record given, with
    the model [gemini-2.5-flash] if it had none, the language [ts] if it
    had neither [js] nor [ts], and the empty key if it had neither a key
    nor a project. *)
Theorem force_mode_resolves_to_defaults (w : W) (o : AgentCreationOptions) :
  forceYes o = Some true ->
  out (run h (untilGeneration o) w) = Returned (force_defaults o) /\
  truthy (model (force_defaults o)) = true /\
  (strict_eq (language (force_defaults o)) "js" = true \/
   strict_eq (language (force_defaults o)) "ts" = true) /\
  agentName (force_defaults o) = agentName o /\
  project (force_defaults o) = project o /\
  region (force_defaults o) = region o.
Proof.
  intros Hf. split; [exact (force_mode_defaults_reached h w o Hf) |].
  unfold force_defaults, force_backend, force_language, force_model.
  destruct (truthy (model o)) eqn:Hm;
    destruct (strict_eq (language o) "js") eqn:Hjs;
    destruct (strict_eq (language o) "ts") eqn:Hts;
    cbn [orb language set_model set_language];
    rewrite ?Hjs, ?Hts; cbn [orb language set_model set_language apiKey project];
    destruct (truthy (apiKey o) || truthy (project o));
    cbn; rewrite ?Hm; auto 10.
Qed.

(** X10.  In force mode [createAgent] always asks for the agent source to
    be written, even when the folder could be neither removed nor
    created.  What it asks to write is an initial part of the files of the
    defaulted record, and all of them when no write fails: the files depend
    on the record only, not on the machine. *)
Theorem force_mode_writes_are_determined (w : W) (o : AgentCreationOptions) :
  forceYes o = Some true ->
  write_calls (trace (run h (createAgent o) w)) !! 0%nat =
    candidate_files (force_defaults o) !! 0%nat /\
  (exists rest,
     candidate_files (force_defaults o) =
     write_calls (trace (run h (createAgent o) w)) ++ rest) /\
  (existsb failed_write (trace (run h (createAgent o) w)) = false ->
   write_calls (trace (run h (createAgent o) w)) =
   candidate_files (force_defaults o)).
Proof.
  intros Hf.
  pose proof (force_mode_defaults_reached h w o Hf) as Ho.
  rewrite createAgent_write_calls, Ho.
  split; [apply generateFiles_first_write |].
  destruct (generateFiles_spec h (force_defaults o)
              (final (run h (untilGeneration o) w))) as (Hpre & Hall & _).
  split; [exact Hpre |].
  intros Hnf. apply Hall.
  exact (createAgent_failed_write h o w _ Ho Hnf).
Qed.

End ForceModeTheorems.

Lemma force_mode_resolves_to_defaults_witness :
  out (run Ref.handle
         (CliCreate.untilGeneration (host := Ref.posix) Examples.weather_bot)
         Examples.occupied) = Returned Examples.weather_bot_resolved.
Proof.
  exact (proj1 (force_mode_resolves_to_defaults (host := Ref.posix) Ref.handle
                  Examples.occupied Examples.weather_bot eq_refl)).
Defined.

Lemma force_mode_writes_are_determined_witness :
  map fst (write_calls (trace (run Ref.handle
     (CliCreate.createAgent (host := Ref.posix) Examples.weather_bot)
     Examples.occupied))) =
  ["/work/weather_bot/agent.ts"; "/work/weather_bot/.env";
   "/work/weather_bot/package.json"; "/work/weather_bot/tsconfig.json"].
Proof.
  rewrite (proj2 (proj2 (force_mode_writes_are_determined (host := Ref.posix)
                           Ref.handle Examples.occupied Examples.weather_bot
                           eq_refl)) eq_refl).
  reflexivity.
Defined.

(** ** Where the workflow looks, and when *)

(** Takes the answers of the environment [h] apart, call by call. *)
Ltac take_answers h :=
  repeat (simpl;
    match goal with
    | |- context [match fst (h ?X ?e ?w) with _ => _ end] =>
        destruct (fst (h X e w)) eqn:?
    end); simpl.

Section Phases.
Import FileUtils CliCreate.
Context {host : Host}.

Lemma untilGeneration_no_output o : avoids is_output_call (untilGeneration o).
Proof. open_blocks. walk. Qed.

Lemma fromGeneration_no_setup d o : avoids is_setup_call (fromGeneration d o).
Proof. open_blocks. walk. Qed.

Lemma untilGeneration_no_report o : avoids is_report_call (untilGeneration o).
Proof. open_blocks. walk. Qed.

Lemma generateFiles_no_report o : avoids is_report_call (generateFiles o).
Proof. open_blocks. walk. Qed.

Lemma installDependencies_no_report d o :
  avoids is_report_call (installDependencies d o).
Proof. open_blocks. walk. Qed.

Lemma untilInstall_no_report o : avoids is_report_call (untilInstall o).
Proof.
  unfold untilInstall. apply avoids_bind; [apply untilGeneration_no_report |].
  intros o'. apply avoids_bind; [apply generateFiles_no_report |].
  intros _. exact I.
Qed.

Lemma generateFiles_never_exits o : never_exits (generateFiles o).
Proof. open_blocks. walk_tree. Qed.

Lemma installDependencies_never_exits d o :
  never_exits (installDependencies d o).
Proof. open_blocks. walk_tree. Qed.

(** The installer throws exactly when one of its installs fails. *)
Lemma installDependencies_failure {W} (h : handler W) d o w :
  (existsb failed_exec (trace (run h (installDependencies d o) w)) = true ->
   exists e, out (run h (installDependencies d o) w) = Thrown e) /\
  (existsb failed_exec (trace (run h (installDependencies d o) w)) = false ->
   out (run h (installDependencies d o) w) = Returned tt).
Proof.
  unfold installDependencies, execPromise, call.
  destruct (strict_eq (language o) "ts"); take_answers h;
    split; intros Hx; try discriminate Hx; eauto;
    repeat match goal with u : unit |- _ => destruct u end; reflexivity.
Qed.

(** Takes the first entries of a trace that is given entry by entry. *)
Ltac first_entries :=
  exists (@nil event) + eexists (cons _ nil) + eexists (cons _ (cons _ nil)) +
  eexists (cons _ (cons _ (cons _ nil))).

(** A write that fails is the last one of [generateFiles]: its error is
    logged and thrown. *)
Lemma generateFiles_failure {W} (h : handler W) o w :
  existsb failed_write (trace (run h (generateFiles o) w)) = true ->
  exists before path data e,
    trace (run h (generateFiles o) w) =
      before ++
      [Ev (FsWriteFile path data) (Err e);
       Ev (ConsoleError ("Failed to write file " +:+ path +:+ ":") (Some e)) tt] /\
    existsb failed_write before = false /\
    out (run h (generateFiles o) w) = Thrown e.
Proof.
  unfold generateFiles, saveToFile, call.
  destruct (strict_eq (language o) "ts"); take_answers h;
    intros Hx; try discriminate Hx;
    repeat match goal with
           | |- context [fst (h unit ?c ?w')] => destruct (fst (h unit c w'))
           end;
    repeat match goal with u : unit |- _ => destruct u end;
    first_entries; eexists _, _, _; (split; [reflexivity |]);
    split; reflexivity.
Qed.

(** An install that fails is the last one of [installDependencies], and its
    error is thrown. *)
Lemma installDependencies_stops {W} (h : handler W) d o w :
  existsb failed_exec (trace (run h (installDependencies d o) w)) = true ->
  exists before cmd e,
    trace (run h (installDependencies d o) w) =
      before ++ [Ev (Exec cmd d) (Err e)] /\
    existsb failed_exec before = false /\
    out (run h (installDependencies d o) w) = Thrown e.
Proof.
  unfold installDependencies, execPromise, call.
  destruct (strict_eq (language o) "ts"); take_answers h;
    intros Hx; try discriminate Hx;
    repeat match goal with u : unit |- _ => destruct u end.
  all: first_entries; eexists _, _; (split; [reflexivity |]);
    split; reflexivity.
Qed.

(** The summary always returns, and its last line is the advice. *)
Lemma forEach_log_run {W} (h : handler W) (files : list string) w :
  out (run h (forEach files (fun file => call (ConsoleLog ("  - " +:+ file)))) w)
  = Returned tt.
Proof.
  revert w. induction files as [| f files IH]; intros w; [reflexivity |].
  cbn [forEach]. rewrite run_bind. unfold call at 1. cbn [run out trace final].
  rewrite IH. reflexivity.
Qed.

Lemma reportFiles_run {W} (h : handler W) d o w :
  out (run h (reportFiles d o) w) = Returned tt /\
  exists before,
    trace (run h (reportFiles d o) w) =
    before ++
    [Ev (ConsoleLog ("Run 'cd " +:+ agentName o +:+
                     " && npm run web' to start the agent in a web interface"))
        tt].
Proof.
  unfold reportFiles. rewrite run_bind.
  assert (Hl : exists files, out (run h (listFiles d) w) = Returned files).
  { unfold listFiles, call. take_answers h; eauto. }
  destruct Hl as [files Hl]. rewrite Hl. cbn [out trace final].
  rewrite run_bind. unfold call at 1. cbn [run out trace final].
  rewrite run_bind, forEach_log_run. cbn [out trace final].
  unfold call. cbn [run out trace].
  repeat match goal with
         | |- context [fst (h unit ?c ?w')] => destruct (fst (h unit c w'))
         end.
  split; [reflexivity |]. eexists. rewrite !app_assoc. reflexivity.
Qed.

End Phases.

Section PhasesTheorems.
Import FileUtils CliCreate.
Context {host : Host} {W : Type} (h : handler W).

(** X11.  Every run of [createAgent] has two parts.  In the first it only
    looks at the disk and at the machine, removes and creates the folder
    and asks; in the second it only writes, installs, lists and reports.
    So nothing is asked and no folder is removed or created once the first
    file has been written, and nothing is written or installed before the
    last question is answered. *)
Theorem setup_comes_before_output (w : W) (o : AgentCreationOptions) :
  exists before after,
    trace (run h (createAgent o) w) = before ++ after /\
    Forall (fun ev => event_is is_output_call ev = false) before /\
    Forall (fun ev => event_is is_setup_call ev = false) after.
Proof.
  rewrite run_createAgent, run_bind.
  pose proof (avoids_run _ h _ w (untilGeneration_no_output o)) as Hu.
  destruct (out (run h (untilGeneration o) w)) as [o' | e | c];
    cbn [trace].
  - eexists _, _. split; [reflexivity |]. split; [exact Hu |].
    apply avoids_run, fromGeneration_no_setup.
  - exists (trace (run h (untilGeneration o) w)), [].
    rewrite app_nil_r. repeat split; [exact Hu | constructor].
  - exists (trace (run h (untilGeneration o) w)), [].
    rewrite app_nil_r. repeat split; [exact Hu | constructor].
Qed.

(** X12.  A write that fails ends [createAgent] with the error of that
    write: the failed write is the first one that fails, the log of its
    error is all that follows it in the run, the error thrown is the error
    of the write, no install is run and no summary is printed. *)
Theorem failed_write_stops_the_workflow (w : W) (o : AgentCreationOptions) :
  existsb failed_write (trace (run h (createAgent o) w)) = true ->
  exists before path data e,
    trace (run h (createAgent o) w) =
      before ++
      [Ev (FsWriteFile path data) (Err e);
       Ev (ConsoleError ("Failed to write file " +:+ path +:+ ":") (Some e)) tt] /\
    existsb failed_write before = false /\
    out (run h (createAgent o) w) = Thrown e /\
    exec_calls (trace (run h (createAgent o) w)) = [] /\
    Forall (fun ev => event_is is_report_call ev = false)
      (trace (run h (createAgent o) w)).
Proof.
  rewrite run_createAgent, run_bind.
  pose proof (no_write_no_failed_write _
    (avoids_run _ h _ w (untilGeneration_no_write o))) as Hu.
  pose proof (avoids_run _ h _ w (untilGeneration_no_exec o)) as Hue.
  pose proof (avoids_run _ h _ w (untilGeneration_no_report o)) as Hur.
  destruct (out (run h (untilGeneration o) w)) as [o' | e | c];
    cbn [out trace]; [| congruence | congruence].
  rewrite existsb_app, Hu. cbn [orb].
  set (w1 := final (run h (untilGeneration o) w)).
  unfold fromGeneration. rewrite run_bind.
  destruct (generateFiles_spec h o' w1) as (_ & Hok & _).
  pose proof (generateFiles_failure h o' w1) as Hfail.
  destruct (existsb failed_write (trace (run h (generateFiles o') w1))) eqn:Hg.
  - destruct (Hfail eq_refl) as (before & path & data & e & Htr & Hb & He).
    rewrite He. cbn [out trace]. intros _.
    exists (trace (run h (untilGeneration o) w) ++ before), path, data, e.
    split; [rewrite Htr; apply app_assoc |].
    split; [rewrite existsb_app, Hu, Hb; reflexivity |].
    split; [reflexivity |]. split.
    + rewrite exec_calls_app, (exec_calls_none _ Hue).
      apply exec_calls_none, avoids_run, generateFiles_no_exec.
    + apply Forall_app. split; [exact Hur |].
      apply avoids_run, generateFiles_no_report.
  - destruct (Hok eq_refl) as [_ Ho]. rewrite Ho. cbn [out trace].
    rewrite existsb_app, Hg. cbn [orb].
    rewrite (no_write_no_failed_write (trace (run h (bind _ _) _))).
    + discriminate.
    + apply avoids_run, avoids_bind;
        [apply installDependencies_no_write | intros _; apply reportFiles_no_write].
Qed.

(** X13.  An install that fails ends [createAgent] with the error of that
    install: the failed install is the first one that fails and the last
    entry of the run, it was started in the folder of the agent, the error
    thrown is its error, the folder is not listed and no summary is
    printed. *)
Theorem failed_install_stops_the_workflow (w : W) (o : AgentCreationOptions) :
  existsb failed_exec (trace (run h (createAgent o) w)) = true ->
  exists before cmd e,
    trace (run h (createAgent o) w) =
      before ++ [Ev (Exec cmd (path_join dirname (agentName o))) (Err e)] /\
    existsb failed_exec before = false /\
    out (run h (createAgent o) w) = Thrown e /\
    Forall (fun ev => event_is is_report_call ev = false)
      (trace (run h (createAgent o) w)).
Proof.
  rewrite run_createAgent_install, run_bind.
  pose proof (no_exec_no_failed_exec _
    (avoids_run _ h _ w (untilInstall_no_exec o))) as Hu.
  pose proof (avoids_run _ h _ w (untilInstall_no_report o)) as Hur.
  destruct (out (run h (untilInstall o) w)) as [o' | e | c];
    cbn [out trace]; [| congruence | congruence].
  rewrite existsb_app, Hu. cbn [orb].
  set (d := path_join dirname (agentName o)).
  set (w1 := final (run h (untilInstall o) w)).
  rewrite run_bind.
  destruct (installDependencies_failure h d o' w1) as [_ Hok].
  pose proof (installDependencies_stops h d o' w1) as Hfail.
  destruct (existsb failed_exec (trace (run h (installDependencies d o') w1)))
    eqn:Hi.
  - destruct (Hfail eq_refl) as (before & cmd & e & Htr & Hb & He).
    rewrite He. cbn [out trace]. intros _.
    exists (trace (run h (untilInstall o) w) ++ before), cmd, e.
    split; [rewrite Htr; apply app_assoc |].
    split; [rewrite existsb_app, Hu, Hb; reflexivity |].
    split; [reflexivity |].
    apply Forall_app. split; [exact Hur |].
    apply avoids_run, installDependencies_no_report.
  - rewrite (Hok eq_refl). cbn [out trace].
    rewrite existsb_app, Hi. cbn [orb].
    rewrite (no_exec_no_failed_exec (trace (run h (reportFiles _ _) _))).
    + discriminate.
    + apply avoids_run, reportFiles_no_exec.
Qed.

(** X14.  Once the installs have gone through, [createAgent] returns
    normally, and the last thing it does is to print the advice to run
    [npm run web] in the folder of the agent; a listing of the folder that
    fails does not change that. *)
Theorem summary_never_fails (w : W) (o o' : AgentCreationOptions) :
  out (run h (untilInstall o) w) = Returned o' ->
  existsb failed_exec (trace (run h (createAgent o) w)) = false ->
  out (run h (createAgent o) w) = Returned tt /\
  last (trace (run h (createAgent o) w)) =
    Some (Ev (ConsoleLog ("Run 'cd " +:+ agentName o' +:+
                          " && npm run web' to start the agent in a web interface"))
            tt).
Proof.
  intros Ho. rewrite run_createAgent_install, run_bind, Ho. cbn [out trace].
  rewrite existsb_app. intros Hx. apply orb_false_elim in Hx as [_ Hx].
  revert Hx.
  set (d := path_join dirname (agentName o)).
  set (w1 := final (run h (untilInstall o) w)).
  rewrite run_bind.
  destruct (installDependencies_failure h d o' w1) as [Hfail Hok].
  destruct (existsb failed_exec (trace (run h (installDependencies d o') w1)))
    eqn:Hi.
  - destruct (Hfail eq_refl) as [e He]. rewrite He. cbn [out trace].
    rewrite Hi. discriminate.
  - rewrite (Hok eq_refl). cbn [out trace]. intros _.
    destruct (reportFiles_run h d o'
                (final (run h (installDependencies d o') w1)))
      as [Hout [before Htr]].
    split; [exact Hout |].
    rewrite Htr, !app_assoc. apply last_snoc.
Qed.

End PhasesTheorems.

Lemma failed_write_stops_the_workflow_witness :
  exists before path data e,
    trace (run Ref.handle
            (CliCreate.createAgent (host := Ref.posix) Examples.overdetermined)
            MoreExamples.source_is_a_folder) =
      before ++
      [Ev (FsWriteFile path data) (Err e);
       Ev (ConsoleError ("Failed to write file " +:+ path +:+ ":") (Some e)) tt] /\
    existsb failed_write before = false /\
    out (run Ref.handle
            (CliCreate.createAgent (host := Ref.posix) Examples.overdetermined)
            MoreExamples.source_is_a_folder) = Thrown e /\
    exec_calls (trace (run Ref.handle
            (CliCreate.createAgent (host := Ref.posix) Examples.overdetermined)
            MoreExamples.source_is_a_folder)) = [] /\
    Forall (fun ev => event_is is_report_call ev = false)
      (trace (run Ref.handle
            (CliCreate.createAgent (host := Ref.posix) Examples.overdetermined)
            MoreExamples.source_is_a_folder)).
Proof.
  exact (failed_write_stops_the_workflow (host := Ref.posix) Ref.handle
           MoreExamples.source_is_a_folder Examples.overdetermined eq_refl).
Defined.

Lemma failed_install_stops_the_workflow_witness :
  exists before cmd e,
    trace (run Ref.handle
            (CliCreate.createAgent (host := Ref.posix) Examples.overdetermined)
            MoreExamples.broken_install) =
      before ++ [Ev (Exec cmd "/work/bot") (Err e)] /\
    existsb failed_exec before = false /\
    out (run Ref.handle
            (CliCreate.createAgent (host := Ref.posix) Examples.overdetermined)
            MoreExamples.broken_install) = Thrown e /\
    Forall (fun ev => event_is is_report_call ev = false)
      (trace (run Ref.handle
            (CliCreate.createAgent (host := Ref.posix) Examples.overdetermined)
            MoreExamples.broken_install)).
Proof.
  exact (failed_install_stops_the_workflow (host := Ref.posix) Ref.handle
           MoreExamples.broken_install Examples.overdetermined eq_refl).
Defined.

Lemma summary_never_fails_witness :
  out (run Ref.handle
         (CliCreate.createAgent (host := Ref.posix) Examples.weather_bot)
         Ref.empty) = Returned tt /\
  last (trace (run Ref.handle
         (CliCreate.createAgent (host := Ref.posix) Examples.weather_bot)
         Ref.empty)) =
    Some (Ev (ConsoleLog
                "Run 'cd weather_bot && npm run web' to start the agent in a web interface")
            tt).
Proof.
  exact (summary_never_fails (host := Ref.posix) Ref.handle Ref.empty
           Examples.weather_bot Examples.weather_bot_resolved eq_refl eq_refl).
Defined.

(** ** What is asked, and what is looked up *)

Section Asking.
Import FileUtils CliCreate.
Context {host : Host}.

Lemma generateAgentFolder_no_probe d f :
  avoids is_probe_call (generateAgentFolder d f).
Proof. open_blocks. walk. Qed.

Lemma chooseModel_no_probe o : avoids is_probe_call (chooseModel o).
Proof. open_blocks. walk. Qed.

Lemma chooseLanguage_no_probe o : avoids is_probe_call (chooseLanguage o).
Proof. open_blocks. walk. Qed.

Lemma fromGeneration_no_probe d o : avoids is_probe_call (fromGeneration d o).
Proof. open_blocks. walk. Qed.

Lemma chooseBackend_no_probe o :
  truthy_flag (forceYes o) || truthy (apiKey o) || truthy (project o) = true ->
  avoids is_probe_call (chooseBackend o).
Proof.
  unfold chooseBackend, chooseApiKey, call.
  destruct (truthy (apiKey o)), (truthy (project o)),
    (truthy_flag (forceYes o)); simpl; intros Hc; try discriminate Hc;
    repeat split.
Qed.

Lemma createAgent_no_probe o :
  truthy_flag (forceYes o) || truthy (apiKey o) || truthy (project o) = true ->
  avoids is_probe_call (createAgent o).
Proof.
  intros Hc. unfold createAgent.
  apply avoids_bind; [apply generateAgentFolder_no_probe | intros _].
  eapply avoids_bind_returns;
    [apply chooseModel_no_probe | apply chooseModel_returns |].
  intros o1 ([_ Hf1] & (Hk1 & Hp1 & _) & _).
  eapply avoids_bind_returns;
    [apply chooseLanguage_no_probe | apply chooseLanguage_returns |].
  intros o2 ([_ Hf2] & (Hk2 & Hp2 & _) & _).
  eapply avoids_bind;
    [apply chooseBackend_no_probe;
     rewrite Hf2, Hf1, Hk2, Hk1, Hp2, Hp1; exact Hc |].
  intros o3. apply fromGeneration_no_probe.
Qed.

Lemma generateAgentFolder_no_question d f :
  avoids is_question_call (generateAgentFolder d f).
Proof. open_blocks. walk. Qed.

Lemma fromGeneration_no_question d o :
  avoids is_question_call (fromGeneration d o).
Proof. open_blocks. walk. Qed.

Lemma chooseModel_given o :
  truthy (model o) = true -> avoids is_prompt_call (chooseModel o).
Proof. intros Hm. unfold chooseModel. rewrite Hm. exact I. Qed.

Lemma chooseLanguage_given o :
  strict_eq (language o) "js" || strict_eq (language o) "ts" = true ->
  avoids is_prompt_call (chooseLanguage o).
Proof.
  intros Hl. unfold chooseLanguage.
  destruct (strict_eq (language o) "js"), (strict_eq (language o) "ts");
    try discriminate Hl; exact I.
Qed.

Lemma chooseBackend_given o :
  truthy (apiKey o) || truthy (project o) = true ->
  avoids is_prompt_call (chooseBackend o).
Proof.
  intros Hc. unfold chooseBackend.
  destruct (truthy (apiKey o)), (truthy (project o));
    try discriminate Hc; exact I.
Qed.

(** With the model, the language and a credential given, nothing after the
    folder is settled prompts. *)
Lemma decisions_given_silent o :
  truthy (model o) = true ->
  strict_eq (language o) "js" || strict_eq (language o) "ts" = true ->
  truthy (apiKey o) || truthy (project o) = true ->
  avoids is_prompt_call
    (let* o1 := chooseModel o in
     let* o2 := chooseLanguage o1 in
     let* o3 := chooseBackend o2 in
     fromGeneration (path_join dirname (agentName o)) o3).
Proof.
  intros Hm Hl Hc.
  eapply avoids_bind_returns;
    [apply chooseModel_given, Hm | apply chooseModel_returns |].
  intros o1 (_ & (Hk1 & Hp1 & _) & Hl1).
  eapply avoids_bind_returns;
    [apply chooseLanguage_given; rewrite Hl1; exact Hl
    | apply chooseLanguage_returns |].
  intros o2 (_ & (Hk2 & Hp2 & _) & _).
  eapply avoids_bind;
    [apply chooseBackend_given; rewrite Hk2, Hk1, Hp2, Hp1; exact Hc |].
  intros o3. apply fromGeneration_silent.
Qed.

Lemma avoids_prompt_question {A} (p : Prog A) :
  avoids is_prompt_call p -> avoids is_question_call p.
Proof.
  induction p as [a | e | c | X e k IH]; simpl; auto.
  intros [He Hk]. split; [| intros x; apply IH, Hk].
  destruct e; try reflexivity; discriminate He.
Qed.

End Asking.

Section AskingTheorems.
Import FileUtils CliCreate.
Context {host : Host} {W : Type} (h : handler W).

(** X15.  The environment variables and the cloud tool are consulted only
    on the way through the backend question: in force mode, or with a key
    or a project given, [createAgent] never reads [process.env] and never
    runs [gcloud]. *)
Theorem probes_only_behind_the_backend_question (w : W)
    (o : AgentCreationOptions) :
  truthy_flag (forceYes o) || truthy (apiKey o) || truthy (project o) = true ->
  Forall (fun ev => event_is is_probe_call ev = false)
    (trace (run h (createAgent o) w)).
Proof.
  intros Hc. apply avoids_run, createAgent_no_probe, Hc.
Qed.

(** X16.  With a model, a language that is [js] or [ts], and a key or a
    project given, [createAgent] asks none of its configuration questions,
    force flag or not; the only thing it may still ask is whether to
    overwrite the folder, and when the folder is not there it asks nothing
    at all. *)
Theorem given_values_are_not_asked_for (w : W) (o : AgentCreationOptions) :
  truthy (model o) = true ->
  strict_eq (language o) "js" || strict_eq (language o) "ts" = true ->
  truthy (apiKey o) || truthy (project o) = true ->
  Forall (fun ev => event_is is_question_call ev = false)
    (trace (run h (createAgent o) w)) /\
  (forall e,
     fst (h _ (FsAccess (path_join dirname (agentName o))) w) = Err e ->
     Forall (fun ev => is_prompt ev = false) (trace (run h (createAgent o) w))).
Proof.
  intros Hm Hl Hc.
  pose proof (decisions_given_silent o Hm Hl Hc) as Hrest.
  split.
  - unfold createAgent. apply avoids_run.
    apply avoids_bind; [apply generateAgentFolder_no_question | intros _].
    apply avoids_prompt_question. exact Hrest.
  - intros e Hacc. unfold createAgent. rewrite run_bind.
    assert (Hgaf :
      out (run h (generateAgentFolder (path_join dirname (agentName o))
                    (forceYes o)) w) = Returned tt /\
      Forall (fun ev => is_prompt ev = false)
        (trace (run h (generateAgentFolder (path_join dirname (agentName o))
                         (forceYes o)) w))).
    { unfold generateAgentFolder, isFolderExists, createFolder, call.
      cbn [bind run out trace final]. rewrite Hacc.
      cbn [bind run out trace final negb].
      destruct (fst (h _ (FsMkdir _) _)) as [[] | e'];
        cbn [bind run out trace final];
        repeat match goal with
               | |- context [fst (h unit ?c ?w')] => destruct (fst (h unit c w'))
               end;
        split; try reflexivity; repeat constructor. }
    destruct Hgaf as [Ho Hp]. rewrite Ho. cbn [trace].
    apply Forall_app. split; [exact Hp |].
    apply (avoids_run is_prompt_call). exact Hrest.
Qed.

End AskingTheorems.

Lemma probes_only_behind_the_backend_question_witness :
  Forall (fun ev => event_is is_probe_call ev = false)
    (trace (run Ref.handle
              (CliCreate.createAgent (host := Ref.posix) Examples.weather_bot)
              Examples.cloudy)).
Proof.
  exact (probes_only_behind_the_backend_question (host := Ref.posix) Ref.handle
           Examples.cloudy Examples.weather_bot eq_refl).
Defined.

Lemma given_values_are_not_asked_for_witness :
  Forall (fun ev => is_prompt ev = false)
    (trace (run Ref.handle
              (CliCreate.createAgent (host := Ref.posix) Examples.overdetermined)
              Ref.empty)).
Proof.
  exact (proj2 (given_values_are_not_asked_for (host := Ref.posix) Ref.handle
                  Ref.empty Examples.overdetermined eq_refl eq_refl eq_refl)
           "ENOENT" eq_refl).
Defined.

(** ** The folder *)

Section Folder.
Import FileUtils CliCreate.
Context {host : Host} {W : Type} (h : handler W).

(** X17.  When the overwrite is settled (by the force flag, or by a yes to
    the question), [generateAgentFolder] returns normally whatever the file
    system does.  For a folder that is there it asks for its removal and
    then for its creation, in that order and both, even when the removal
    failed; for a folder that is not there it asks for its creation only. *)
Theorem settled_folder_is_removed_then_created (w : W) (agentDir : string)
    (forceYes : option bool) :
  truthy_flag forceYes = true \/
  fst (h _ (SelectBool
              ("Folder " +:+ agentDir +:+
               " already exists. Would you like to overwrite existing folder?")
              [("Yes", true); ("No", false)])
         (snd (h _ (FsAccess agentDir) w))) = Answered true ->
  out (run h (generateAgentFolder agentDir forceYes) w) = Returned tt /\
  folder_calls (trace (run h (generateAgentFolder agentDir forceYes) w)) =
    match fst (h _ (FsAccess agentDir) w) with
    | Ok _ => [Removed agentDir; Created agentDir]
    | Err _ => [Created agentDir]
    end.
Proof.
  intros Hsettled.
  unfold generateAgentFolder, isFolderExists, createFolder, removeFolder, call.
  cbn [bind run out trace final].
  destruct (fst (h _ (FsAccess agentDir) w)) as [[] | e0];
    cbn [bind run out trace final negb].
  - destruct (truthy_flag forceYes) eqn:Hf.
    + cbn [bind run out trace final]. take_answers h;
        repeat match goal with
               | |- context [fst (h unit ?c ?w')] => destruct (fst (h unit c w'))
               end;
        repeat match goal with u : unit |- _ => destruct u end;
        split; reflexivity.
    + destruct Hsettled as [Hx | Hyes]; [discriminate Hx |].
      cbn [bind run out trace final]. rewrite Hyes.
      cbn [bind run out trace final]. take_answers h;
        repeat match goal with
               | |- context [fst (h unit ?c ?w')] => destruct (fst (h unit c w'))
               end;
        repeat match goal with u : unit |- _ => destruct u end;
        split; reflexivity.
  - take_answers h;
      repeat match goal with
             | |- context [fst (h unit ?c ?w')] => destruct (fst (h unit c w'))
             end;
      repeat match goal with u : unit |- _ => destruct u end;
      split; reflexivity.
Qed.

End Folder.

Lemma settled_folder_is_removed_then_created_witness :
  out (run Ref.handle
         (CliCreate.generateAgentFolder "/work/weather_bot" (Some true))
         Examples.occupied) = Returned tt /\
  folder_calls (trace (run Ref.handle
         (CliCreate.generateAgentFolder "/work/weather_bot" (Some true))
         Examples.occupied)) =
    [Removed "/work/weather_bot"; Created "/work/weather_bot"].
Proof.
  exact (settled_folder_is_removed_then_created Ref.handle Examples.occupied
           "/work/weather_bot" (Some true) (or_introl eq_refl)).
Defined.

(** On the reference machine the file that was in the folder is gone after
    the overwrite. *)
Example overwrite_empties_the_folder :
  map fst (Ref.fs (final (run Ref.handle
         (CliCreate.generateAgentFolder "/work/weather_bot" (Some true))
         Examples.occupied))) = ["/work"; "/work/weather_bot"].
Proof. vm_compute. reflexivity. Qed.
